(** * astroquery.irsa.core: payload building and response parsing

    A shallow embedding of [astroquery/irsa/core.py], the client of the
    IRSA Gator catalog search service, and the properties of the payload
    it assembles and of the way it unwraps a response.

    The module is glue around three collaborators that are not part of
    it: astropy's units and coordinates, astropy's VOTable reader and the
    [commons] helpers of astroquery.  They are taken as an environment
    (an [Astropy] record); everything the module itself does, the
    branching on the spatial mode, the dictionary updates, the exception
    handlers, the warnings and prints, is written out. *)

From Stdlib Require Import ZArith List Bool Ascii String Lia.
From Stdlib Require Import Numbers.DecimalString.
From stdpp Require Import base option gmap strings list fin_maps.
Import ListNotations.

Open Scope string_scope.
Set Warnings "-register-all,-clear-no-such-hyp".

(** ** Python exceptions

    A class is named by its identifier; an exception carries its class,
    the classes it inherits from, and its message.  [isinstance] is what
    an [except] clause tests. *)

Record exn := Exn {
  exn_class : string;
  exn_bases : list string;
  exn_msg : string
}.

Definition isinstance (e : exn) (cls : string) : bool :=
  String.eqb (exn_class e) cls || existsb (String.eqb cls) (exn_bases e).

(** [except (A, B)] *)
Definition isinstance_any (e : exn) (clss : list string) : bool :=
  existsb (isinstance e) clss.

Definition standard_bases : list string :=
  ["StandardError"; "Exception"; "BaseException"].

Definition ValueError (msg : string) : exn := Exn "ValueError" standard_bases msg.
Definition TypeError (msg : string) : exn := Exn "TypeError" standard_bases msg.
Definition IndexError (msg : string) : exn :=
  Exn "IndexError" ("LookupError" :: standard_bases) msg.
Definition UnboundLocalError (msg : string) : exn :=
  Exn "UnboundLocalError" ("NameError" :: standard_bases) msg.
(** [raise Exception(msg)] *)
Definition Exception (msg : string) : exn := Exn "Exception" ["BaseException"] msg.

Inductive result (A : Type) : Type :=
| Ok (a : A)
| Raise (e : exn).
Arguments Ok {A} a.
Arguments Raise {A} e.

(** ** Angular units

    The units [u.deg.find_equivalent_units()] lists, and any other unit
    by its name. *)

Inductive Unit : Type :=
| arcsec | arcmin | deg | rad | hourangle | mas | uas
| other_unit (name : string).

Definition Unit_eqb (a b : Unit) : bool :=
  match a, b with
  | arcsec, arcsec | arcmin, arcmin | deg, deg | rad, rad
  | hourangle, hourangle | mas, mas | uas, uas => true
  | other_unit n, other_unit m => String.eqb n m
  | _, _ => false
  end.

(** [unit.to_string()] *)
Definition to_string (u : Unit) : string :=
  match u with
  | arcsec => "arcsec" | arcmin => "arcmin" | deg => "deg" | rad => "rad"
  | hourangle => "hourangle" | mas => "mas" | uas => "uas"
  | other_unit name => name
  end.

(** [u.Unit(s)] for the names of the angular units. *)
Definition Unit_of_string (s : string) : option Unit :=
  if String.eqb s "arcsec" then Some arcsec
  else if String.eqb s "arcmin" then Some arcmin
  else if String.eqb s "deg" then Some deg
  else if String.eqb s "degree" then Some deg
  else if String.eqb s "rad" then Some rad
  else if String.eqb s "radian" then Some rad
  else if String.eqb s "hourangle" then Some hourangle
  else if String.eqb s "mas" then Some mas
  else if String.eqb s "uas" then Some uas
  else None.

(** [unit == 'name']: astropy parses the string and compares units. *)
Definition Unit_eq_str (u : Unit) (s : string) : bool :=
  match Unit_of_string s with
  | Some u' => Unit_eqb u u'
  | None => false
  end.

(** [unit in u.deg.find_equivalent_units()] *)
Definition is_angle_unit (u : Unit) : bool :=
  match u with
  | other_unit _ => false
  | _ => true
  end.

(** ** Strings *)

(** [needle in hay] *)
Fixpoint str_contains (needle hay : string) : bool :=
  String.prefix needle hay ||
  match hay with
  | EmptyString => false
  | String _ rest => str_contains needle rest
  end.

(** [s.split(sep)] for a one-character separator. *)
Fixpoint str_split (sep : ascii) (s : string) : list string :=
  match s with
  | EmptyString => [EmptyString]
  | String c rest =>
      if Ascii.eqb c sep then EmptyString :: str_split sep rest
      else match str_split sep rest with
           | [] => [String c EmptyString]
           | t :: ts => String c t :: ts
           end
  end.

Fixpoint str_has (c : ascii) (s : string) : bool :=
  match s with
  | EmptyString => false
  | String d rest => Ascii.eqb d c || str_has c rest
  end.

Definition comma : ascii := ","%char.

(** the characters of a string, as Python iterates over it *)
Fixpoint str_chars (s : string) : list string :=
  match s with
  | EmptyString => []
  | String c rest => String c EmptyString :: str_chars rest
  end.

(** Python's decimal rendering of the magnitude of an [int]. *)
Definition int_digits (z : Z) : string :=
  NilZero.string_of_uint (N.to_uint (Z.abs_N z)).

(** ** Python values

    The values the module handles: [None], strings, numbers, tuples and
    lists, astropy coordinate objects and astropy quantities.  A [float]
    is opaque: the module never computes with one, it only prints it. *)

Section Values.
Context {float : Type}.

Inductive number : Type :=
| NInt (z : Z)
| NFloat (f : float).

(** [u.Quantity]: [q.value], [q.unit] *)
Record quantity : Type := Quantity { value : number; unit : Unit }.

(** An instance of [coord.SphericalCoordinatesBase], seen through the
    two attributes the module reads: [c.icrs.ra.degree] and
    [c.icrs.dec.degree]. *)
Record SphericalCoordinates : Type := SkyCoord {
  ra_degree : float;
  dec_degree : float
}.

Inductive pyval : Type :=
| PyNone
| PyStr (s : string)
| PyNum (n : number)
| PyTuple (items : list pyval)
| PyList (items : list pyval)
| PyCoord (c : SphericalCoordinates)
| PyQuantity (q : quantity).

(** [v == 'literal'] *)
Definition py_eq_str (v : pyval) (s : string) : bool :=
  match v with
  | PyStr s' => String.eqb s' s
  | _ => false
  end.

(** [v is None] *)
Definition is_None (v : pyval) : bool :=
  match v with PyNone => true | _ => false end.

(** [isinstance(v, tuple)] *)
Definition is_tuple (v : pyval) : bool :=
  match v with PyTuple _ => true | _ => false end.

(** [for x in v] *)
Definition py_iter (v : pyval) : result (list pyval) :=
  match v with
  | PyList items | PyTuple items => Ok items
  | PyStr s => Ok (map PyStr (str_chars s))
  | PyNone => Raise (TypeError "'NoneType' object is not iterable")
  | PyNum _ => Raise (TypeError "object is not iterable")
  | PyCoord _ => Raise (TypeError "object is not iterable")
  | PyQuantity _ => Raise (TypeError "'Quantity' object with a scalar value is not iterable")
  end.

(** [v[i]] for a literal index [i] *)
Definition py_getitem (v : pyval) (i : nat) : result pyval :=
  match v with
  | PyList items =>
      match nth_error items i with
      | Some x => Ok x
      | None => Raise (IndexError "list index out of range")
      end
  | PyTuple items =>
      match nth_error items i with
      | Some x => Ok x
      | None => Raise (IndexError "tuple index out of range")
      end
  | PyStr s =>
      match nth_error (str_chars s) i with
      | Some c => Ok (PyStr c)
      | None => Raise (IndexError "string index out of range")
      end
  | PyNone => Raise (TypeError "'NoneType' object has no attribute '__getitem__'")
  | PyNum _ => Raise (TypeError "object has no attribute '__getitem__'")
  | PyCoord _ => Raise (TypeError "object does not support indexing")
  | PyQuantity _ => Raise (TypeError "'Quantity' object with a scalar value does not support indexing")
  end.

(** The request payload: a Python [dict] with string keys. *)
Definition payload : Type := gmap string pyval.

(** [requests.Response], seen through [response.content]. *)
Record response : Type := Response { content : string }.

(** What [commons.send_request] is called with. *)
Record request : Type := Request {
  req_url : string;
  req_payload : gmap string pyval;
  req_timeout : pyval;
  req_type : string
}.

(** ** The world outside the interpreter

    Warnings issued, lines printed, requests sent over the network, and
    whether the VOTable warnings have been silenced. *)

Record world : Type := World {
  warnings : list string;
  stdout : list string;
  network : list request;
  vo_warnings_suppressed : bool
}.

(** A computation that may change the world and may raise. *)
Definition M (A : Type) : Type := world -> world * result A.

Definition ret {A} (a : A) : M A := fun w => (w, Ok a).

Definition bind {A B} (c : M A) (k : A -> M B) : M B :=
  fun w =>
    match c w with
    | (w', Ok a) => k a w'
    | (w', Raise e) => (w', Raise e)
    end.

Definition raise {A} (e : exn) : M A := fun w => (w, Raise e).

(** a call of a collaborator that touches nothing *)
Definition lift {A} (r : result A) : M A := fun w => (w, r).

(** [try: body except classes as e: handler e] *)
Definition try_except {A} (body : M A) (classes : list string)
    (handler : exn -> M A) : M A :=
  fun w =>
    match body w with
    | (w', Raise e) =>
        if isinstance_any e classes then handler e w' else (w', Raise e)
    | r => r
    end.

(** [warnings.warn(msg)] *)
Definition warn (msg : string) : M Datatypes.unit :=
  fun w => (World (warnings w ++ [msg]) (stdout w) (network w)
              (vo_warnings_suppressed w), Ok tt).

(** [print(msg)] *)
Definition print (msg : string) : M Datatypes.unit :=
  fun w => (World (warnings w) (stdout w ++ [msg]) (network w)
              (vo_warnings_suppressed w), Ok tt).

(** [commons.suppress_vo_warnings()] *)
Definition suppress_vo_warnings : M Datatypes.unit :=
  fun w => (World (warnings w) (stdout w) (network w) true, Ok tt).

(** [[f(x) for x in l]] *)
Fixpoint list_comprehension {A B} (f : A -> M B) (l : list A) : M (list B) :=
  match l with
  | [] => ret []
  | x :: rest =>
      bind (f x) (fun y =>
      bind (list_comprehension f rest) (fun ys => ret (y :: ys)))
  end.

End Values.

Arguments number : clear implicits.
Arguments quantity : clear implicits.
Arguments SphericalCoordinates : clear implicits.
Arguments pyval : clear implicits.
Arguments payload : clear implicits.
Arguments request : clear implicits.
Arguments world : clear implicits.
Arguments M : clear implicits.

Notation "x <- c ;; k" := (bind c (fun x => k))
  (at level 100, c at next level, right associativity).
Notation "c ;;; k" := (bind c (fun _ => k))
  (at level 100, right associativity).

(** ** The collaborators

    What the module imports and does not define: how a float prints, how
    an object prints, astropy's coordinate and angle parsers and unit
    conversion, [commons.parse_radius], the VOTable reader, the HTTP
    transport, and the configuration items of the package. *)

Class Astropy (float table : Type) : Type := {
  (** a float prints as a sign and the digits of its magnitude *)
  float_minus : float -> bool;
  float_digits : float -> string;
  (** [str(v)] of a tuple, list, coordinate object or quantity *)
  object_str : pyval float -> string;
  (** [format(v, '+')] of a coordinate object or quantity *)
  object_format_sign : pyval float -> result string;
  (** [coord.ICRSCoordinates(v)] *)
  ICRSCoordinates : pyval float -> result (SphericalCoordinates float);
  (** [coord.Angle(v).degree] *)
  Angle_degree : pyval float -> result float;
  (** [commons.parse_radius(v).degree] *)
  parse_radius_degree : pyval float -> result float;
  (** [q.to(target).value]; the quantity [q.to(target)] has unit [target] *)
  Quantity_to_value : quantity float -> Unit -> result (number float);
  (** the classes [u.UnitsException] inherits from *)
  UnitsException_bases : list string;
  (** [votable.parse(file, pedantic=False).get_first_table()] on a file
      that holds the given bytes *)
  votable_first_table : string -> result table;
  (** [len(first_table.to_table())] *)
  table_len : table -> nat;
  (** the server behind [commons.send_request] *)
  http : request float -> result response;
  ROW_LIMIT : pyval float;
  IRSA_URL : string;
  TIMEOUT : pyval float
}.

(** What [query_region] and its helpers hand back: Python returns the
    payload dictionary, the HTTP response, the parsed table or the raw
    body from the same functions. *)
Inductive returned (float table : Type) : Type :=
| RPayload (p : gmap string (pyval float))
| RResponse (r : response)
| RTable (t : table)
| RContent (body : string).
Arguments RPayload {float table} p.
Arguments RResponse {float table} r.
Arguments RTable {float table} t.
Arguments RContent {float table} body.

Section Irsa.
Context {float table : Type} {astropy : Astropy float table}.

Local Abbreviation pyval := (pyval float).
Local Abbreviation M := (M float).

(** [raise u.UnitsException(msg)] *)
Definition UnitsException (msg : string) : exn :=
  Exn "UnitsException" UnitsException_bases msg.

(** [q.to(target)] *)
Definition Quantity_to (q : quantity float) (target : Unit) : result (quantity float) :=
  match Quantity_to_value q target with
  | Ok v => Ok (Quantity v target)
  | Raise e => Raise e
  end.

(** How Python prints a number: a sign and the digits of the magnitude. *)
Definition number_minus (n : number float) : bool :=
  match n with
  | NInt z => (z <? 0)%Z
  | NFloat f => float_minus f
  end.

Definition number_digits (n : number float) : string :=
  match n with
  | NInt z => int_digits z
  | NFloat f => float_digits f
  end.

(** ['{0}'.format(v)], that is [str(v)] *)
Definition format_plain (v : pyval) : string :=
  match v with
  | PyNone => "None"
  | PyStr s => s
  | PyNum n => (if number_minus n then "-" else "") ++ number_digits n
  | _ => object_str v
  end.

(** ['{0:+}'.format(v)]: a number always carries its sign; [None], a
    string, a tuple or a list fall back on [str.__format__], which does
    not take a sign. *)
Definition format_sign (v : pyval) : result string :=
  match v with
  | PyNum n => Ok ((if number_minus n then "-" else "+") ++ number_digits n)
  | PyCoord _ | PyQuantity _ => object_format_sign v
  | _ => Raise (ValueError "Sign not allowed in string format specifier")
  end.

(** [commons.send_request(url, payload, timeout, request_type=...)] *)
Definition send_request (url : string) (data : gmap string pyval)
    (timeout : pyval) (request_type : string) : M response :=
  fun w =>
    let rq := Request url data timeout request_type in
    (World (warnings w) (stdout w) (network w ++ [rq]) (vo_warnings_suppressed w),
     http rq).

Definition _format_decimal_coords (ra dec : pyval) : result string :=
  match format_sign dec with
  | Ok d => Ok (format_plain ra ++ " " ++ d)
  | Raise e => Raise e
  end.

Definition _is_coordinate (coordinates : pyval) : M bool :=
  try_except
    (_ <- lift (ICRSCoordinates coordinates) ;; ret true)
    ["ValueError"]
    (fun _ => ret false).

Definition _parse_coordinates (coordinates : pyval) : M string :=
  c <- match coordinates with
       | PyStr _ =>
           try_except
             (c <- lift (ICRSCoordinates coordinates) ;;
              warn "Coordinate string is being interpreted as an ICRS coordinate." ;;;
              ret c)
             ["UnitsException"]
             (fun ex =>
                warn ("Only ICRS coordinates can be entered as strings" ++
                      String "010"%char
                        "For other systems please use the appropriate astropy.coordinates object") ;;;
                raise ex)
       | PyCoord c => ret c
       | _ => raise (TypeError "Argument cannot be parsed as a coordinate")
       end ;;
  lift (_format_decimal_coords (PyNum (NFloat (ra_degree c)))
                               (PyNum (NFloat (dec_degree c)))).

Definition _parse_dimension (dim : pyval) : M (quantity float) :=
  let otherwise : M (quantity float) :=
    try_except
      (new_dim_degree <- lift (parse_radius_degree dim) ;;
       ret (Quantity (NFloat new_dim_degree) deg))
      ["UnitsException"; "coordinates.errors.UnitsError"; "AttributeError"]
      (fun _ => raise (UnitsException "Dimension not in proper units")) in
  match dim with
  | PyQuantity q =>
      if is_angle_unit (unit q) then
        if negb (existsb (Unit_eq_str (unit q)) ["arcsec"; "arcmin"; "deg"])
        then lift (Quantity_to q deg)
        else ret q
      else otherwise
  | _ => otherwise
  end.

(** One vertex of the polygon as
    [(coord.Angle(pair[0]).degree, coord.Angle(pair[1]).degree)]. *)
Definition pair_to_degrees (pair : pyval) : M pyval :=
  p0 <- lift (py_getitem pair 0) ;;
  ra <- lift (Angle_degree p0) ;;
  p1 <- lift (py_getitem pair 1) ;;
  dec <- lift (Angle_degree p1) ;;
  ret (PyTuple [PyNum (NFloat ra); PyNum (NFloat dec)]).

(** One vertex as [_format_decimal_coords(pair[0], pair[1])]. *)
Definition pair_to_string (pair : pyval) : M string :=
  p0 <- lift (py_getitem pair 0) ;;
  p1 <- lift (py_getitem pair 1) ;;
  lift (_format_decimal_coords p0 p1).

(** The [objstr] value: the coordinates as given when they do not parse
    as ICRS coordinates, their decimal rendering when they do. *)
Definition objstr_of (coordinates : pyval) : M pyval :=
  is_coord <- _is_coordinate coordinates ;;
  if negb is_coord then ret coordinates
  else (s <- _parse_coordinates coordinates ;; ret (PyStr s)).

(** The [try] statement of the polygon branch.  It leaves two local
    variables behind: [polygon], which the handler may rebind, and
    [coordinates_list], which stays unbound ([None]) when the handler
    does not reach its assignment. *)
Definition polygon_vertices (polygon : pyval) : M (pyval * option (list string)) :=
  try_except
    (items <- lift (py_iter polygon) ;;
     coordinates_list <- list_comprehension _parse_coordinates items ;;
     ret (polygon, Some coordinates_list))
    ["ValueError"; "TypeError"]
    (fun _ =>
       first <- lift (py_getitem polygon 0) ;;
       if is_tuple first then
         polygon <-
           try_except
             (items <- lift (py_iter polygon) ;;
              pairs <- list_comprehension pair_to_degrees items ;;
              ret (PyList pairs))
             ["UnitsException"]
             (fun _ =>
                warn "Polygon endpoints are being interpreted as RA/Dec pairs specified in decimal degree units." ;;;
                ret polygon) ;;
         items <- lift (py_iter polygon) ;;
         coordinates_list <- list_comprehension pair_to_string items ;;
         ret (polygon, Some coordinates_list)
       else ret (polygon, None)).

Definition _parse_spatial (spatial coordinates radius width polygon : pyval)
    : M (gmap string pyval) :=
  let request_payload : gmap string pyval := ∅ in
  if py_eq_str spatial "All-Sky" then
    let spatial := PyStr "NONE" in
    ret (<["spatial" := spatial]> request_payload)
  else if existsb (py_eq_str spatial) ["Cone"; "Box"] then
    objstr <- objstr_of coordinates ;;
    let request_payload := <["objstr" := objstr]> request_payload in
    if py_eq_str spatial "Cone" then
      radius <- _parse_dimension radius ;;
      let request_payload := <["radius" := PyNum (value radius)]> request_payload in
      let request_payload :=
        <["radunits" := PyStr (to_string (unit radius))]> request_payload in
      ret (<["spatial" := spatial]> request_payload)
    else
      width <- _parse_dimension width ;;
      size <- lift (Quantity_to width arcsec) ;;
      let request_payload := <["size" := PyNum (value size)]> request_payload in
      ret (<["spatial" := spatial]> request_payload)
  else if py_eq_str spatial "Polygon" then
    request_payload <-
      (if negb (is_None coordinates) then
         objstr <- objstr_of coordinates ;;
         ret (<["objstr" := objstr]> request_payload)
       else ret request_payload) ;;
    locals <- polygon_vertices polygon ;;
    match snd locals with
    | Some coordinates_list =>
        let request_payload :=
          <["polygon" := PyStr (String.concat "," coordinates_list)]> request_payload in
        ret (<["spatial" := spatial]> request_payload)
    | None =>
        raise (UnboundLocalError
                 "local variable 'coordinates_list' referenced before assignment")
    end
  else
    raise (ValueError ("Unrecognized spatial query type. " ++
                       "Must be one of 'Cone', 'Box', 'Polygon', or 'All-Sky'.")).

Definition _args_to_payload (catalog : pyval) : gmap string pyval :=
  <["catalog" := catalog]>
    (<["outfmt" := PyNum (NInt 3)]>
       (<["outrows" := ROW_LIMIT]> ∅)).

(** [dict.update]: the keys of [other] overwrite those of [d]. *)
Definition dict_update (d other : gmap string pyval) : gmap string pyval :=
  other ∪ d.

(** The defaults of the keyword arguments; an argument that the caller
    leaves out is [None] here. *)
Definition default_spatial : pyval := PyStr "Cone".
Definition default_radius : pyval := PyQuantity (Quantity (NInt 10) arcsec).

Definition query_region_async
    (coordinates catalog spatial radius width polygon : option pyval)
    (get_query_payload : option bool) : M (returned float table) :=
  let coordinates := default PyNone coordinates in
  let catalog := default PyNone catalog in
  let spatial := default default_spatial spatial in
  let radius := default default_radius radius in
  let width := default PyNone width in
  let polygon := default PyNone polygon in
  let get_query_payload := default false get_query_payload in
  if is_None catalog then raise (Exception "Catalog name is required!")
  else
    let request_payload := _args_to_payload catalog in
    parsed <- _parse_spatial spatial coordinates radius width polygon ;;
    let request_payload := dict_update request_payload parsed in
    if get_query_payload then ret (RPayload request_payload)
    else
      response <- send_request IRSA_URL request_payload TIMEOUT "GET" ;;
      ret (RResponse response).

Definition _parse_result (response : response) (verbose : bool)
    : M (returned float table) :=
  (if negb verbose then suppress_vo_warnings else ret tt) ;;;
  if str_contains "The catalog is not on the list" (content response) then
    raise (Exception "Catalog not found")
  else if str_contains "Either wrong or missing coordinate/object name" (content response) then
    raise (Exception "Malformed coordinate/object name")
  else if Nat.eqb (String.length (content response)) 0 then
    raise (Exception "The IRSA server sent back an empty reply")
  else
    (* the body goes through a temporary file to the VOTable reader *)
    let output := content response in
    parsed <-
      try_except
        (first_table <- lift (votable_first_table output) ;; ret (Some first_table))
        ["Exception"]
        (fun ex =>
           print "Failed to parse votable! Returning raw result instead." ;;;
           print (exn_msg ex) ;;;
           ret None) ;;
    match parsed with
    | None => ret (RContent (content response))
    | Some table =>
        (if Nat.eqb (table_len table) 0
         then warn "Query returned no results, so the table will be empty"
         else ret tt) ;;;
        ret (RTable table)
    end.

Definition query_region
    (coordinates catalog spatial radius width polygon : option pyval)
    (get_query_payload verbose : option bool) : M (returned float table) :=
  let spatial' := Some (default default_spatial spatial) in
  let radius' := Some (default default_radius radius) in
  let get_query_payload := default false get_query_payload in
  let verbose := default false verbose in
  response <- query_region_async coordinates catalog spatial' radius' width polygon
                (Some get_query_payload) ;;
  if get_query_payload then ret response
  else
    match response with
    | RResponse r => _parse_result r verbose
    | _ => raise (Exn "AttributeError" standard_bases "object has no attribute 'content'")
    end.

End Irsa.

(** ** A small instance of the collaborators

    Floats with an integral value, a coordinate parser that knows one
    position, angles that need a unit, and a server that answers every
    request with an empty table.  It is what the examples run on. *)

Module Demo.

Definition float : Type := Z.
Definition table : Type := nat.

Definition demo_ICRSCoordinates (v : pyval float) : result (SphericalCoordinates float) :=
  match v with
  | PyStr s =>
      if String.eqb s "10 +41" then Ok (SkyCoord 10%Z 41%Z)
      else Raise (ValueError "Could not parse the coordinate string")
  | PyCoord c => Ok c
  | _ => Raise (ValueError "Could not parse the coordinates")
  end.

Definition demo_UnitsException (msg : string) : exn :=
  Exn "UnitsException" ("ValueError" :: standard_bases) msg.

Definition demo_Angle_degree (v : pyval float) : result float :=
  match v with
  | PyQuantity (Quantity (NFloat d) deg) => Ok d
  | PyQuantity (Quantity (NInt d) deg) => Ok d
  | _ => Raise (demo_UnitsException "No unit was specified in Angle initializer")
  end.

Definition demo_parse_radius_degree (v : pyval float) : result float :=
  match v with
  | PyStr s =>
      if String.eqb s "1d" then Ok 1%Z
      else Raise (demo_UnitsException "Could not parse the angle")
  | _ => Raise (Exn "AttributeError" standard_bases "'NoneType' object has no attribute 'to'")
  end.

Definition number_scale (k : Z) (n : number float) : number float :=
  match n with
  | NInt z => NInt (k * z)
  | NFloat f => NFloat (k * f)%Z
  end.

Definition demo_Quantity_to_value (q : quantity float) (target : Unit)
    : result (number float) :=
  match unit q, target with
  | arcsec, arcsec | arcmin, arcmin | deg, deg => Ok (value q)
  | arcmin, arcsec => Ok (number_scale 60 (value q))
  | deg, arcsec => Ok (number_scale 3600 (value q))
  | deg, arcmin => Ok (number_scale 60 (value q))
  | _, _ => Raise (demo_UnitsException "units are not convertible")
  end.

Definition demo_votable_first_table (body : string) : result table :=
  if String.prefix "<VOTABLE" body then Ok 0
  else Raise (Exn "ExpatError" standard_bases "syntax error: line 1, column 0").

#[export] Instance demo : Astropy float table := {|
  float_minus := fun f => (f <? 0)%Z;
  float_digits := fun f => int_digits f ++ ".0";
  object_str := fun _ => "<object>";
  object_format_sign := fun _ =>
    Raise (ValueError "Sign not allowed in string format specifier");
  ICRSCoordinates := demo_ICRSCoordinates;
  Angle_degree := demo_Angle_degree;
  parse_radius_degree := demo_parse_radius_degree;
  Quantity_to_value := demo_Quantity_to_value;
  UnitsException_bases := "ValueError" :: standard_bases;
  votable_first_table := demo_votable_first_table;
  table_len := fun t => t;
  http := fun _ => Ok (Response "<VOTABLE></VOTABLE>");
  ROW_LIMIT := PyNum (NInt 500);
  IRSA_URL := "http://irsa.ipac.caltech.edu/cgi-bin/Gator/nph-query";
  TIMEOUT := PyNum (NInt 60)
|}.

(** a world in which nothing has happened yet *)
Definition quiet : world float := World [] [] [] false.

End Demo.

(** ** The payload keys the service expects

    The four spatial modes and, following the description of the
    service's keywords, the keys each mode adds to the common ones. *)

Inductive mode : Type := Cone | Box | Polygon | AllSky.

Definition mode_name (m : mode) : string :=
  match m with
  | Cone => "Cone" | Box => "Box" | Polygon => "Polygon" | AllSky => "All-Sky"
  end.

Definition spec_common_keys : gset string :=
  {["catalog"; "outfmt"; "outrows"; "spatial"]}.

Definition spec_mode_keys (m : mode) (center_given : bool) : gset string :=
  match m with
  | Cone => {["objstr"; "radius"; "radunits"]}
  | Box => {["objstr"; "size"]}
  | Polygon => {["polygon"]} ∪ (if center_given then {["objstr"]} else ∅)
  | AllSky => ∅
  end.

(** The message of the error for an unknown spatial mode. *)
Definition unrecognized_spatial : string :=
  "Unrecognized spatial query type. Must be one of 'Cone', 'Box', 'Polygon', or 'All-Sky'.".

(** ** Effects a computation may have

    [keeps_network c]: running [c] sends nothing, whatever it returns. *)

Definition keeps_network {float A : Type} (c : M float A) : Prop :=
  forall w, network (fst (c w)) = network w.

(** [assembled_payload w w' r p]: a run of [query_region_async] from
    [w] to [w'] that returned [r] assembled the payload [p], which is
    either what it returned or what it sent as its one request. *)
Definition assembled_payload {float table : Type} (w w' : world float)
    (r : returned float table) (p : gmap string (pyval float)) : Prop :=
  match r with
  | RPayload p' => p' = p /\ network w' = network w
  | RResponse _ =>
      exists rq, network w' = (network w ++ [rq])%list /\ req_payload rq = p
  | _ => False
  end.

(** ** The vertices of a polygon

    A vertex given as a pair of numbers is the Python tuple [(ra, dec)];
    the service reads it as the right ascension, a blank, and the
    declination with its sign. *)

Definition vertex {float : Type} (v : number float * number float) : pyval float :=
  PyTuple [PyNum (fst v); PyNum (snd v)].

Definition spec_vertex_token {float table : Type} {astropy : Astropy float table}
    (v : number float * number float) : string :=
  ((if number_minus (fst v) then "-" else "") ++ number_digits (fst v))
  ++ " " ++
  String (if number_minus (snd v) then "-"%char else "+"%char) (number_digits (snd v)).

(** [in_degrees v v']: [coord.Angle] reads both numbers of [v], and [v']
    is the pair of their values in degrees. *)
Definition in_degrees {float table : Type} {astropy : Astropy float table}
    (v v' : number float * number float) : Prop :=
  exists ra dec,
    Angle_degree (PyNum (fst v)) = Ok ra /\
    Angle_degree (PyNum (snd v)) = Ok dec /\
    v' = (NFloat ra, NFloat dec).

(** [only_warns c]: whatever [c] returns or raises, all it does to the
    world is to issue warnings: nothing is printed, nothing is sent, the
    VOTable warnings are left as they were and no earlier warning is
    lost. *)
Definition only_warns {float A : Type} (c : M float A) : Prop :=
  forall w, exists issued,
    fst (c w) =
    World (warnings w ++ issued) (stdout w) (network w) (vo_warnings_suppressed w).

(** ** The catalog directory

    [list_catalogs] reads the answer of the Gator list service with
    [xml.etree.ElementTree].  An element is its tag, its text ([None] for
    an element without text) and its children; the parser itself,
    [tree.fromstring], is a collaborator, like the address of the list
    service. *)

Inductive Element : Type :=
| Elem (tag : string) (text : option string) (children : list Element).

Definition tag (e : Element) : string :=
  match e with Elem t _ _ => t end.

(** [e.text] *)
Definition text (e : Element) : option string :=
  match e with Elem _ t _ => t end.

Definition children (e : Element) : list Element :=
  match e with Elem _ _ c => c end.

(** [e.findall(name)]: the children of [e] with that tag, in document
    order *)
Definition Element_findall (name : string) (e : Element) : list Element :=
  List.filter (fun child => String.eqb (tag child) name) (children e).

(** [e.find(name)]: the first child with that tag, or [None] *)
Definition Element_find (name : string) (e : Element) : option Element :=
  head (Element_findall name e).

Definition AttributeError (msg : string) : exn :=
  Exn "AttributeError" standard_bases msg.

(** [found.text], where [found] is what [find] returned *)
Definition text_of_found (found : option Element) : result (option string) :=
  match found with
  | Some e => Ok (text e)
  | None => Raise (AttributeError "'NoneType' object has no attribute 'text'")
  end.

(** The loop of [list_catalogs] over the elements [findall] returned,
    with the dictionary built so far.  A key or a value is [None] when
    the element has no text. *)
Fixpoint collect_catalogs (found : list Element)
    (catalogs : gmap (option string) (option string))
    : result (gmap (option string) (option string)) :=
  match found with
  | [] => Ok catalogs
  | catalog :: rest =>
      match text_of_found (Element_find "catname" catalog) with
      | Raise e => Raise e
      | Ok catname =>
          match text_of_found (Element_find "desc" catalog) with
          | Raise e => Raise e
          | Ok desc => collect_catalogs rest (<[catname := desc]> catalogs)
          end
      end
  end.

Class Gator : Type := {
  GATOR_LIST_URL : string;
  (** [tree.fromstring(body)] *)
  fromstring : string -> result Element
}.

Section Directory.
Context {float table : Type} {astropy : Astropy float table} {gator : Gator}.

Definition list_catalogs : M float (gmap (option string) (option string)) :=
  response <- send_request GATOR_LIST_URL {["mode" := PyStr "xml"]} TIMEOUT "GET" ;;
  root <- lift (fromstring (content response)) ;;
  let catalogs : gmap (option string) (option string) := ∅ in
  lift (collect_catalogs (Element_findall "catalog" root) catalogs).

End Directory.

(** The entries a list of [<catalog>] elements stands for, when each has
    its name and its description: the texts of the first [<catname>] and
    of the first [<desc>] child. *)
Fixpoint catalog_entries (found : list Element)
    : option (list (option string * option string)) :=
  match found with
  | [] => Some []
  | catalog :: rest =>
      match Element_find "catname" catalog, Element_find "desc" catalog,
            catalog_entries rest with
      | Some name, Some desc, Some entries => Some ((text name, text desc) :: entries)
      | _, _, _ => None
      end
  end.

(** A directory service for the small instance: two catalogs, and one
    element that is not a catalog. *)
Module DemoGator.

Definition directory : Element :=
  Elem "catalogs" None
    [Elem "catalog" None
       [Elem "catname" (Some "fp_psc") []; Elem "desc" (Some "2MASS Point Sources") []];
     Elem "note" (Some "updated") [];
     Elem "catalog" None
       [Elem "catname" (Some "wise_allsky") []; Elem "desc" (Some "WISE All-Sky") []]].

#[export] Instance demo_gator : Gator := {|
  GATOR_LIST_URL := "http://irsa.ipac.caltech.edu/cgi-bin/Gator/nph-scan";
  fromstring := fun body =>
    if String.prefix "<VOTABLE" body then Ok directory
    else Raise (Exn "ParseError" ("SyntaxError" :: standard_bases) "syntax error")
|}.

(** The same service answering with an entry that has no description. *)
Definition incomplete_directory : Element :=
  Elem "catalogs" None
    [Elem "catalog" None
       [Elem "catname" (Some "fp_psc") []; Elem "desc" (Some "2MASS Point Sources") []];
     Elem "catalog" None [Elem "catname" (Some "wise_allsky") []]].

Definition demo_gator_incomplete : Gator := {|
  GATOR_LIST_URL := "http://irsa.ipac.caltech.edu/cgi-bin/Gator/nph-scan";
  fromstring := fun _ => Ok incomplete_directory
|}.

End DemoGator.

(** A position of the sky written the same way: [c.icrs.ra.degree], a
    blank, and [c.icrs.dec.degree] with its sign. *)
Definition position_token {float table : Type} {astropy : Astropy float table}
    (c : SphericalCoordinates float) : string :=
  spec_vertex_token (NFloat (ra_degree c), NFloat (dec_degree c)).

(** ** The sign of a declination

    How a float compares with zero is Python's to say, like its digits:
    [float_compare_zero f] is [Lt], [Eq] or [Gt] as [f < 0], [f == 0] or
    [f > 0] holds, and [None] for a NaN, for which none does.  An [int]
    compares as the integer it is. *)

Class FloatOrder (float : Type) : Type := {
  float_compare_zero : float -> option comparison
}.

Definition number_compare_zero {float : Type} {order : FloatOrder float}
    (n : number float) : option comparison :=
  match n with
  | NInt z => Some (z ?= 0)%Z
  | NFloat f => float_compare_zero f
  end.

(** [n >= 0] *)
Definition spec_nonnegative {float : Type} {order : FloatOrder float}
    (n : number float) : bool :=
  match number_compare_zero n with
  | Some Eq | Some Gt => true
  | _ => false
  end.

(** The character in front of the digits of a declination. *)
Definition declination_sign {float table : Type} {astropy : Astropy float table}
    (dec : number float) : ascii :=
  if number_minus dec then "-"%char else "+"%char.

(** ** Floats with a sign bit

    The floats with an integral value, each with its sign bit as IEEE 754
    has it, so that there are two zeros: [0.0] and [-0.0].  Both compare
    equal to zero; the second prints with a minus.  The other
    collaborators are as bare as can be: no coordinate parses, an angle
    needs a unit, the server answers with an empty body. *)

Module SignedFloats.

Record float : Type := Float { sign_bit : bool; magnitude : N }.

Definition table : Type := nat.

Definition compare_zero (f : float) : option comparison :=
  if (magnitude f =? 0)%N then Some Eq
  else if sign_bit f then Some Lt else Some Gt.

Definition signed_UnitsException (msg : string) : exn :=
  Exn "UnitsException" ("ValueError" :: standard_bases) msg.

#[export] Instance signed : Astropy float table := {|
  float_minus := sign_bit;
  float_digits := fun f => int_digits (Z.of_N (magnitude f)) ++ ".0";
  object_str := fun _ => "<object>";
  object_format_sign := fun _ =>
    Raise (ValueError "Sign not allowed in string format specifier");
  ICRSCoordinates := fun _ => Raise (ValueError "Could not parse the coordinates");
  Angle_degree := fun _ =>
    Raise (signed_UnitsException "No unit was specified in Angle initializer");
  parse_radius_degree := fun _ =>
    Raise (signed_UnitsException "Could not parse the angle");
  Quantity_to_value := fun q _ => Ok (value q);
  UnitsException_bases := "ValueError" :: standard_bases;
  votable_first_table := fun _ =>
    Raise (Exn "ExpatError" standard_bases "syntax error: line 1, column 0");
  table_len := fun t => t;
  http := fun _ => Ok (Response "");
  ROW_LIMIT := PyNum (NInt 500);
  IRSA_URL := "http://irsa.ipac.caltech.edu/cgi-bin/Gator/nph-query";
  TIMEOUT := PyNum (NInt 60)
|}.

#[export] Instance signed_order : FloatOrder float := {|
  float_compare_zero := compare_zero
|}.

(** [10.0] and [-0.0] *)
Definition ten : float := Float false 10.
Definition negative_zero : float := Float true 0.

Definition quiet : world float := World [] [] [] false.

(** [(10.0, -0.0)] and [(30, -40)] *)
Definition sample : list (number float * number float) :=
  [(NFloat ten, NFloat negative_zero); (NInt 30, NInt (-40))].

End SignedFloats.

(** * Properties *)

(** ** Strings: containment, splitting and joining *)

Lemma prefix_app (n post : string) : String.prefix n (n ++ post) = true.
Proof.
  induction n as [|c n IH]; simpl.
  - now destruct post.
  - destruct (ascii_dec c c) as [_|Hne]; [exact IH | now destruct Hne].
Qed.

Lemma prefix_split (n s : string) :
  String.prefix n s = true -> exists post, s = n ++ post.
Proof.
  revert s. induction n as [|c n IH]; intros s H.
  - now exists s.
  - destruct s as [|d s]; simpl in H; [discriminate|].
    destruct (ascii_dec c d) as [Hcd|]; [|discriminate].
    subst d. destruct (IH _ H) as [post Hpost]. exists post.
    now subst s.
Qed.

(** [needle in hay] holds exactly when [hay] has [needle] somewhere inside. *)
Lemma str_contains_spec (needle hay : string) :
  str_contains needle hay = true <->
  exists pre post, hay = pre ++ needle ++ post.
Proof.
  split.
  - induction hay as [|c hay IH]; cbn [str_contains]; intros H.
    + apply orb_true_iff in H as [H|H]; [|discriminate].
      apply prefix_split in H as [post ->]. now exists "", post.
    + apply orb_true_iff in H as [H|H].
      * apply prefix_split in H as [post ->]. now exists "", post.
      * destruct (IH H) as (pre & post & ->). now exists (String c pre), post.
  - intros (pre & post & ->). induction pre as [|c pre IH].
    + change ("" ++ needle ++ post) with (needle ++ post).
      destruct (needle ++ post) eqn:E; cbn [str_contains];
        rewrite <- E, prefix_app; reflexivity.
    + change (String c pre ++ needle ++ post) with (String c (pre ++ needle ++ post)).
      cbn [str_contains]. rewrite IH. apply orb_true_r.
Qed.

Lemma str_has_app (c : ascii) (s t : string) :
  str_has c (s ++ t) = str_has c s || str_has c t.
Proof.
  induction s as [|d s IH]; simpl; [reflexivity|].
  now rewrite IH, orb_assoc.
Qed.

(** A decimal numeral has no comma in it. *)
Lemma uint_no_comma (d : Decimal.uint) :
  str_has comma (NilEmpty.string_of_uint d) = false.
Proof. induction d; simpl; auto. Qed.

Lemma int_digits_no_comma (z : Z) : str_has comma (int_digits z) = false.
Proof.
  unfold int_digits, NilZero.string_of_uint.
  destruct (N.to_uint (Z.abs_N z)) eqn:E; try reflexivity;
    rewrite <- E; apply uint_no_comma.
Qed.

Lemma str_split_no_sep (sep : ascii) (s : string) :
  str_has sep s = false -> str_split sep s = [s].
Proof.
  induction s as [|c s IH]; simpl; [reflexivity|].
  intros H. apply orb_false_iff in H as [Hc Hs].
  rewrite Hc, (IH Hs). reflexivity.
Qed.

Lemma str_split_app (sep : ascii) (s rest : string) :
  str_has sep s = false ->
  str_split sep (s ++ String sep rest) = s :: str_split sep rest.
Proof.
  induction s as [|c s IH]; simpl; intros H.
  - now rewrite Ascii.eqb_refl.
  - apply orb_false_iff in H as [Hc Hs]. now rewrite Hc, (IH Hs).
Qed.

(** Splitting the join of comma-free tokens gives the tokens back. *)
Lemma str_split_concat (tokens : list string) :
  tokens <> [] ->
  Forall (fun t => str_has comma t = false) tokens ->
  str_split comma (String.concat "," tokens) = tokens.
Proof.
  induction tokens as [|t ts IH]; [congruence|].
  intros _ Hall. inversion Hall as [|? ? Ht Hts]; subst.
  destruct ts as [|t' ts].
  - simpl. now apply str_split_no_sep.
  - change (String.concat "," (t :: t' :: ts))
      with (t ++ String comma (String.concat "," (t' :: ts))).
    rewrite str_split_app by assumption.
    f_equal. apply IH; [congruence | assumption].
Qed.

(** Stepping through a run that is known to return. *)
Ltac bind_step H :=
  match type of H with
  | context [bind ?c ?k ?w] =>
      unfold bind at 1 in H;
      let E := fresh "E" in
      destruct (c w) as [? [?|?]] eqn:E; [|discriminate H]
  end.

Ltac ret_done H :=
  unfold ret in H; injection H as <- <-.

(** ** How the functions run

    Each lemma reads a successful run of a function back into the runs
    of the steps it is made of. *)

Section Runs.
Context {float table : Type} {astropy : Astropy float table}.
Local Abbreviation pyval := (pyval float).

(** [_parse_dimension] only consults the collaborators: the world is
    left as it was, and the outcome does not depend on it. *)
Lemma _parse_dimension_pure (dim : pyval) (w : world float) :
  _parse_dimension dim w = (w, snd (_parse_dimension dim w)).
Proof.
  unfold _parse_dimension.
  assert (Hother : forall k,
    try_except
      (new_dim_degree <- lift (parse_radius_degree dim) ;;
       ret (Quantity (NFloat new_dim_degree) deg))
      ["UnitsException"; "coordinates.errors.UnitsError"; "AttributeError"]
      (fun _ => raise (UnitsException k)) w
    = (w, snd (try_except
      (new_dim_degree <- lift (parse_radius_degree dim) ;;
       ret (Quantity (NFloat new_dim_degree) deg))
      ["UnitsException"; "coordinates.errors.UnitsError"; "AttributeError"]
      (fun _ => raise (UnitsException k)) w))).
  { intros k. unfold try_except, bind, lift, ret, raise.
    destruct (parse_radius_degree dim) as [d|e]; [reflexivity|].
    destruct (isinstance_any e _); reflexivity. }
  destruct dim; try apply Hother.
  destruct (is_angle_unit (unit q)); [|apply Hother].
  destruct (negb _); reflexivity.
Qed.

Lemma _parse_dimension_world (dim : pyval) (w w' : world float) :
  snd (_parse_dimension dim w) = snd (_parse_dimension dim w').
Proof.
  unfold _parse_dimension.
  destruct dim; try reflexivity;
    try (unfold try_except, bind, lift, ret, raise;
         destruct (parse_radius_degree _) as [d|e]; [reflexivity|];
         destruct (isinstance_any e _); reflexivity).
  destruct (is_angle_unit (unit q)).
  - destruct (negb _); reflexivity.
  - unfold try_except, bind, lift, ret, raise;
      destruct (parse_radius_degree _) as [d|e]; [reflexivity|];
      destruct (isinstance_any e _); reflexivity.
Qed.

Lemma _parse_spatial_Cone (spatial coordinates radius width polygon : pyval)
    (w w' : world float) (sp : gmap string pyval) :
  py_eq_str spatial "Cone" = true ->
  _parse_spatial spatial coordinates radius width polygon w = (w', Ok sp) ->
  exists w0 objstr q,
    objstr_of coordinates w = (w0, Ok objstr) /\
    _parse_dimension radius w0 = (w', Ok q) /\
    sp = <["spatial" := spatial]>
           (<["radunits" := PyStr (to_string (unit q))]>
              (<["radius" := PyNum (value q)]> (<["objstr" := objstr]> ∅))).
Proof.
  intros Hs H. destruct spatial as [|s| | | | |]; try discriminate Hs.
  apply String.eqb_eq in Hs as ->.
  unfold _parse_spatial in H; simpl in H.
  bind_step H. bind_step H. ret_done H. eauto 6.
Qed.

Lemma _parse_spatial_Box (spatial coordinates radius width polygon : pyval)
    (w w' : world float) (sp : gmap string pyval) :
  py_eq_str spatial "Box" = true ->
  _parse_spatial spatial coordinates radius width polygon w = (w', Ok sp) ->
  exists w0 objstr q size,
    objstr_of coordinates w = (w0, Ok objstr) /\
    _parse_dimension width w0 = (w', Ok q) /\
    Quantity_to q arcsec = Ok size /\
    sp = <["spatial" := spatial]>
           (<["size" := PyNum (value size)]> (<["objstr" := objstr]> ∅)).
Proof.
  intros Hs H. destruct spatial as [|s| | | | |]; try discriminate Hs.
  apply String.eqb_eq in Hs as ->.
  unfold _parse_spatial in H; simpl in H.
  bind_step H. bind_step H. bind_step H. ret_done H.
  unfold lift in E1. injection E1 as <- E1. eauto 8.
Qed.

Lemma _parse_spatial_Polygon (spatial coordinates radius width polygon : pyval)
    (w w' : world float) (sp : gmap string pyval) :
  py_eq_str spatial "Polygon" = true ->
  _parse_spatial spatial coordinates radius width polygon w = (w', Ok sp) ->
  exists w0 (center : gmap string pyval) polygon' coordinates_list,
    (if is_None coordinates then w0 = w /\ center = ∅
     else exists objstr,
       objstr_of coordinates w = (w0, Ok objstr) /\
       center = <["objstr" := objstr]> ∅) /\
    polygon_vertices polygon w0 = (w', Ok (polygon', Some coordinates_list)) /\
    sp = <["spatial" := spatial]>
           (<["polygon" := PyStr (String.concat "," coordinates_list)]> center).
Proof.
  intros Hs H. destruct spatial as [|s| | | | |]; try discriminate Hs.
  apply String.eqb_eq in Hs as ->.
  unfold _parse_spatial in H; simpl in H.
  bind_step H. bind_step H.
  destruct a0 as [polygon' [coordinates_list|]]; simpl in H; [|discriminate H].
  ret_done H.
  exists w0, a, polygon', coordinates_list. split; [|split; [assumption|reflexivity]].
  destruct (is_None coordinates); simpl in E.
  - ret_done E. split; reflexivity.
  - bind_step E. ret_done E. eauto.
Qed.

Lemma _parse_spatial_AllSky (spatial coordinates radius width polygon : pyval)
    (w : world float) :
  py_eq_str spatial "All-Sky" = true ->
  _parse_spatial spatial coordinates radius width polygon w =
  (w, Ok (<["spatial" := PyStr "NONE"]> ∅)).
Proof.
  intros Hs. unfold _parse_spatial. rewrite Hs. reflexivity.
Qed.

(** An unknown mode is refused before anything else is looked at. *)
Lemma _parse_spatial_unrecognized (spatial coordinates radius width polygon : pyval)
    (w : world float) :
  existsb (py_eq_str spatial) ["Cone"; "Box"; "Polygon"; "All-Sky"] = false ->
  _parse_spatial spatial coordinates radius width polygon w =
  (w, Raise (ValueError unrecognized_spatial)).
Proof.
  intros H. simpl in H.
  apply orb_false_iff in H as [Hc H]. apply orb_false_iff in H as [Hb H].
  apply orb_false_iff in H as [Hp H]. apply orb_false_iff in H as [Ha _].
  unfold _parse_spatial. simpl. rewrite Ha, Hc, Hb, Hp. reflexivity.
Qed.

(** A run of [query_region_async] that returns: the catalog was given,
    the spatial part was parsed, and the merged payload was either handed
    back or sent. *)
Lemma query_region_async_returns
    (coordinates catalog spatial radius width polygon : option pyval)
    (get_query_payload : option bool) (w w' : world float)
    (r : returned float table) :
  query_region_async coordinates catalog spatial radius width polygon
    get_query_payload w = (w', Ok r) ->
  is_None (default PyNone catalog) = false /\
  exists w1 sp,
    _parse_spatial (default default_spatial spatial) (default PyNone coordinates)
      (default default_radius radius) (default PyNone width)
      (default PyNone polygon) w = (w1, Ok sp) /\
    let request_payload := dict_update (_args_to_payload (default PyNone catalog)) sp in
    if default false get_query_payload
    then w' = w1 /\ r = RPayload request_payload
    else exists resp,
      r = RResponse resp /\
      send_request IRSA_URL request_payload TIMEOUT "GET" w1 = (w', Ok resp).
Proof.
  unfold query_region_async. intros H.
  destruct (is_None (default PyNone catalog)); [discriminate H|].
  split; [reflexivity|].
  bind_step H. exists w0, a. split; [reflexivity|].
  cbv zeta. destruct (default false get_query_payload).
  - ret_done H. split; reflexivity.
  - bind_step H. ret_done H. eauto.
Qed.

Lemma dom_args_to_payload (catalog : pyval) :
  dom (_args_to_payload catalog) = ({["catalog"; "outfmt"; "outrows"]} : gset string).
Proof.
  unfold _args_to_payload. rewrite !dom_insert_L, dom_empty_L. set_solver.
Qed.

(** The keys of the spatial part, mode by mode. *)
Lemma _parse_spatial_dom (m : mode) (coordinates radius width polygon : pyval)
    (w w' : world float) (sp : gmap string pyval) :
  _parse_spatial (PyStr (mode_name m)) coordinates radius width polygon w = (w', Ok sp) ->
  dom sp = {["spatial"]} ∪ spec_mode_keys m (negb (is_None coordinates)).
Proof.
  intros H. destruct m.
  - apply _parse_spatial_Cone in H as (w0 & o & q & _ & _ & ->); [|reflexivity].
    rewrite !dom_insert_L, dom_empty_L. simpl. set_solver.
  - apply _parse_spatial_Box in H as (w0 & o & q & sz & _ & _ & _ & ->); [|reflexivity].
    rewrite !dom_insert_L, dom_empty_L. simpl. set_solver.
  - apply _parse_spatial_Polygon in H as (w0 & c & pg & cl & Hc & _ & ->); [|reflexivity].
    rewrite !dom_insert_L. simpl.
    destruct (is_None coordinates); simpl.
    + destruct Hc as [_ ->]. rewrite dom_empty_L. set_solver.
    + destruct Hc as (o & _ & ->). rewrite dom_insert_L, dom_empty_L. set_solver.
  - rewrite _parse_spatial_AllSky in H by reflexivity.
    injection H as _ <-. rewrite dom_insert_L, dom_empty_L. simpl. set_solver.
Qed.

End Runs.

(** ** Runs on the small instance *)

Module DemoRuns.
Import Demo.

(** A cone search of five arc-seconds around a named source. *)
Example cone_search_payload :
  exists p,
    query_region_async (Some (PyStr "M31")) (Some (PyStr "fp_psc"))
      (Some (PyStr "Cone")) (Some (PyQuantity (Quantity (NInt 5) arcsec)))
      None None (Some true) quiet = (quiet, Ok (RPayload p)) /\
    p !! "spatial" = Some (PyStr "Cone") /\
    p !! "radius" = Some (PyNum (NInt 5)) /\
    p !! "radunits" = Some (PyStr "arcsec") /\
    p !! "objstr" = Some (PyStr "M31") /\
    p !! "catalog" = Some (PyStr "fp_psc") /\
    p !! "outfmt" = Some (PyNum (NInt 3)).
Proof. eexists. repeat split; vm_compute; reflexivity. Qed.

(** An all-sky search is sent as [spatial=NONE]. *)
Example all_sky_payload :
  exists p,
    query_region_async None (Some (PyStr "fp_psc")) (Some (PyStr "All-Sky"))
      None None None (Some true) quiet = (quiet, Ok (RPayload p)) /\
    p !! "spatial" = Some (PyStr "NONE") /\
    map_to_list p !! 4%nat = None.
Proof. eexists. repeat split; vm_compute; reflexivity. Qed.

(** A polygon of bare numbers: the one warning, and the joined tokens. *)
Example polygon_search_payload :
  exists w p,
    query_region_async None (Some (PyStr "fp_psc")) (Some (PyStr "Polygon")) None None
      (Some (PyList [vertex (NInt 10, NInt (-20)); vertex (NFloat 30%Z, NInt 40)]))
      (Some true) quiet = (w, Ok (RPayload p)) /\
    warnings w =
      ["Polygon endpoints are being interpreted as RA/Dec pairs specified in decimal degree units."] /\
    p !! "polygon" = Some (PyStr "10 -20,30.0 +40") /\
    p !! "objstr" = None.
Proof. eexists _, _. repeat split; vm_compute; reflexivity. Qed.

(** A polygon of Python lists, not tuples. *)
Example polygon_of_lists_raises :
  query_region_async None (Some (PyStr "fp_psc")) (Some (PyStr "Polygon")) None None
    (Some (PyList [PyList [PyNum (NInt 10); PyNum (NInt 20)]])) (Some true) quiet
  = (quiet,
     Raise (UnboundLocalError
              "local variable 'coordinates_list' referenced before assignment")).
Proof. reflexivity. Qed.

(** The whole way: one request sent, the empty table parsed and warned
    about. *)
Example query_region_table :
  exists w,
    query_region (Some (PyStr "10 +41")) (Some (PyStr "fp_psc")) None None None None
      None None quiet = (w, Ok (RTable 0%nat)) /\
    length (network w) = 1%nat /\
    warnings w =
      ["Coordinate string is being interpreted as an ICRS coordinate.";
       "Query returned no results, so the table will be empty"] /\
    vo_warnings_suppressed w = true.
Proof. eexists. repeat split; vm_compute; reflexivity. Qed.

Example empty_reply_raises :
  snd (_parse_result (Response "") true quiet)
  = Raise (Exception "The IRSA server sent back an empty reply").
Proof. reflexivity. Qed.

Example malformed_name_raises :
  snd (_parse_result
         (Response "ERROR: Either wrong or missing coordinate/object name.") true quiet)
  = Raise (Exception "Malformed coordinate/object name").
Proof. reflexivity. Qed.

End DemoRuns.

(** ** Nothing but [send_request] touches the network *)

Section Network.
Context {float table : Type} {astropy : Astropy float table}.
Local Abbreviation pyval := (pyval float).
Local Abbreviation M := (M float).

Lemma keeps_network_ret {A} (a : A) : keeps_network (ret a : M A).
Proof. now intros w. Qed.

Lemma keeps_network_raise {A} (e : exn) : keeps_network (raise e : M A).
Proof. now intros w. Qed.

Lemma keeps_network_lift {A} (r : result A) : keeps_network (lift r : M A).
Proof. now intros w. Qed.

Lemma keeps_network_warn (msg : string) : keeps_network (warn (float := float) msg).
Proof. now intros w. Qed.

Lemma keeps_network_print (msg : string) : keeps_network (print (float := float) msg).
Proof. now intros w. Qed.

Lemma keeps_network_bind {A B} (c : M A) (k : A -> M B) :
  keeps_network c -> (forall a, keeps_network (k a)) -> keeps_network (bind c k).
Proof.
  intros Hc Hk w. unfold bind. specialize (Hc w).
  destruct (c w) as [w1 [a|e]]; simpl in *; [|assumption].
  now rewrite Hk.
Qed.

Lemma keeps_network_try_except {A} (body : M A) (classes : list string)
    (handler : exn -> M A) :
  keeps_network body -> (forall e, keeps_network (handler e)) ->
  keeps_network (try_except body classes handler).
Proof.
  intros Hb Hh w. unfold try_except. specialize (Hb w).
  destruct (body w) as [w1 [a|e]]; simpl in *; [assumption|].
  destruct (isinstance_any e classes); simpl; [|assumption].
  now rewrite Hh.
Qed.

Lemma keeps_network_list_comprehension {A B} (f : A -> M B) (l : list A) :
  (forall x, keeps_network (f x)) -> keeps_network (list_comprehension f l).
Proof.
  intros Hf. induction l as [|x l IH]; simpl.
  - apply keeps_network_ret.
  - apply keeps_network_bind; [apply Hf|]. intros y.
    apply keeps_network_bind; [apply IH|]. intros ys. apply keeps_network_ret.
Qed.

Create HintDb network.

#[local] Hint Resolve keeps_network_ret keeps_network_raise keeps_network_lift
  keeps_network_warn keeps_network_print : network.

Ltac network :=
  repeat first
    [ progress auto with network
    | apply keeps_network_bind; [|intros ?]
    | apply keeps_network_try_except; [|intros ?]
    | apply keeps_network_list_comprehension; intros ?
    | match goal with
      | |- keeps_network (if ?b then _ else _) => destruct b
      | |- keeps_network (match ?x with _ => _ end) => destruct x
      end ].

Lemma keeps_network__is_coordinate (coordinates : pyval) :
  keeps_network (_is_coordinate coordinates).
Proof. unfold _is_coordinate. network. Qed.

Lemma keeps_network__parse_coordinates (coordinates : pyval) :
  keeps_network (_parse_coordinates coordinates).
Proof. unfold _parse_coordinates. network. Qed.

Lemma keeps_network_objstr_of (coordinates : pyval) :
  keeps_network (objstr_of coordinates).
Proof.
  unfold objstr_of.
  apply keeps_network_bind; [apply keeps_network__is_coordinate|]. intros b.
  destruct (negb b); [apply keeps_network_ret|].
  apply keeps_network_bind; [apply keeps_network__parse_coordinates|].
  intros s. apply keeps_network_ret.
Qed.

Lemma keeps_network__parse_dimension (dim : pyval) :
  keeps_network (_parse_dimension dim).
Proof. intros w. now rewrite _parse_dimension_pure. Qed.

Lemma keeps_network_polygon_vertices (polygon : pyval) :
  keeps_network (polygon_vertices polygon).
Proof.
  unfold polygon_vertices.
  apply keeps_network_try_except.
  - apply keeps_network_bind; [apply keeps_network_lift|]. intros items.
    apply keeps_network_bind; [|intros; apply keeps_network_ret].
    apply keeps_network_list_comprehension, keeps_network__parse_coordinates.
  - intros _. apply keeps_network_bind; [apply keeps_network_lift|]. intros first.
    destruct (is_tuple first); [|apply keeps_network_ret].
    apply keeps_network_bind.
    + apply keeps_network_try_except.
      * apply keeps_network_bind; [apply keeps_network_lift|]. intros items.
        apply keeps_network_bind; [|intros; apply keeps_network_ret].
        apply keeps_network_list_comprehension. intros pair.
        unfold pair_to_degrees. network.
      * intros _. network.
    + intros pg. apply keeps_network_bind; [apply keeps_network_lift|]. intros items.
      apply keeps_network_bind; [|intros; apply keeps_network_ret].
      apply keeps_network_list_comprehension. intros pair.
      unfold pair_to_string. network.
Qed.

Lemma keeps_network__parse_spatial (spatial coordinates radius width polygon : pyval) :
  keeps_network (_parse_spatial spatial coordinates radius width polygon).
Proof.
  unfold _parse_spatial.
  destruct (py_eq_str spatial "All-Sky"); [apply keeps_network_ret|].
  destruct (existsb _ _).
  - apply keeps_network_bind; [apply keeps_network_objstr_of|]. intros o.
    destruct (py_eq_str spatial "Cone").
    + apply keeps_network_bind; [apply keeps_network__parse_dimension|].
      intros q. apply keeps_network_ret.
    + apply keeps_network_bind; [apply keeps_network__parse_dimension|].
      intros q. apply keeps_network_bind; [apply keeps_network_lift|].
      intros sz. apply keeps_network_ret.
  - destruct (py_eq_str spatial "Polygon"); [|apply keeps_network_raise].
    apply keeps_network_bind.
    + destruct (negb _); [|apply keeps_network_ret].
      apply keeps_network_bind; [apply keeps_network_objstr_of|].
      intros o. apply keeps_network_ret.
    + intros rp. apply keeps_network_bind; [apply keeps_network_polygon_vertices|].
      intros [pg [cl|]]; simpl; [apply keeps_network_ret|apply keeps_network_raise].
Qed.

End Network.

(** ** The keys of the payload *)

Lemma dom_dict_update {float : Type} (d other : gmap string (pyval float)) :
  dom (dict_update d other) = dom other ∪ dom d.
Proof. unfold dict_update. apply dom_union_L. Qed.

(** What a returning run of [query_region_async] assembled. *)
Lemma query_region_async_assembled
    {float table : Type} {astropy : Astropy float table}
    (coordinates catalog spatial radius width polygon : option (pyval float))
    (get_query_payload : option bool) (w w' : world float)
    (r : returned float table) :
  query_region_async coordinates catalog spatial radius width polygon
    get_query_payload w = (w', Ok r) ->
  exists w1 sp,
    _parse_spatial (default default_spatial spatial) (default PyNone coordinates)
      (default default_radius radius) (default PyNone width)
      (default PyNone polygon) w = (w1, Ok sp) /\
    assembled_payload w w' r
      (dict_update (_args_to_payload (default PyNone catalog)) sp).
Proof.
  intros H.
  apply query_region_async_returns in H as (_ & w1 & sp & Hsp & H).
  exists w1, sp. split; [exact Hsp|].
  pose proof (keeps_network__parse_spatial (default default_spatial spatial)
                (default PyNone coordinates) (default default_radius radius)
                (default PyNone width) (default PyNone polygon) w) as Hnet.
  rewrite Hsp in Hnet. simpl in Hnet.
  cbv zeta in H. destruct (default false get_query_payload).
  - destruct H as [-> ->]. simpl. auto.
  - destruct H as (resp & -> & Hsend).
    unfold send_request in Hsend. injection Hsend as <- _.
    simpl. eexists. rewrite Hnet. split; reflexivity.
Qed.

(** A key of the spatial part reads the same in the merged payload. *)
Lemma lookup_dict_update {float : Type} (d other : gmap string (pyval float))
    (k : string) (v : pyval float) :
  other !! k = Some v -> dict_update d other !! k = Some v.
Proof. unfold dict_update. apply lookup_union_Some_l. Qed.

(** C1. For each of the four spatial modes, the payload that
    [query_region_async] assembles, whether it hands it back
    ([get_query_payload=True]) or sends it, has exactly the keys
    [catalog], [outfmt], [outrows] and [spatial] and the keys of the mode:
    [objstr], [radius] and [radunits] for a cone, [objstr] and [size] for
    a box, [polygon] for a polygon, with [objstr] exactly when center
    coordinates are given, and none for an all-sky search. *)
Theorem payload_keys_by_mode {float table : Type} {astropy : Astropy float table}
    (m : mode)
    (coordinates catalog spatial radius width polygon : option (pyval float))
    (get_query_payload : option bool) (w w' : world float)
    (r : returned float table) :
  default default_spatial spatial = PyStr (mode_name m) ->
  query_region_async coordinates catalog spatial radius width polygon
    get_query_payload w = (w', Ok r) ->
  exists p,
    assembled_payload w w' r p /\
    dom p = spec_common_keys ∪
            spec_mode_keys m (negb (is_None (default PyNone coordinates))).
Proof.
  intros Hm H.
  apply query_region_async_assembled in H as (w1 & sp & Hsp & H).
  rewrite Hm in Hsp. apply _parse_spatial_dom in Hsp.
  eexists. split; [exact H|].
  rewrite dom_dict_update, Hsp, dom_args_to_payload.
  unfold spec_common_keys.
  generalize (spec_mode_keys m (negb (is_None (default PyNone coordinates)))).
  clear. intros K. set_solver.
Qed.

Lemma payload_keys_by_mode_witness :
  exists p,
    assembled_payload Demo.quiet Demo.quiet
      (RPayload (table := Demo.table)
         (dict_update (_args_to_payload (astropy := Demo.demo) (PyStr "fp_psc"))
            (<["spatial" := PyStr "Box"]>
               (<["size" := PyNum (NInt 120)]> (<["objstr" := PyStr "M31"]> ∅))))) p /\
    dom p = spec_common_keys ∪ spec_mode_keys Box true.
Proof.
  exact (payload_keys_by_mode (astropy := Demo.demo) Box
           (Some (PyStr "M31")) (Some (PyStr "fp_psc")) (Some (PyStr "Box")) None
           (Some (PyQuantity (Quantity (NInt 2) arcmin))) None (Some true)
           Demo.quiet Demo.quiet _ eq_refl eq_refl).
Defined.

(** ** Asking for the payload only *)

(** C7. With [get_query_payload=True], whatever the spatial mode,
    [query_region_async] hands back the payload it assembled, the common
    keys updated with the parsed spatial part, and an error only where
    assembling raised one; [query_region] hands back the very same thing;
    and no request goes over the network: [send_request] is not called. *)
Theorem get_query_payload_short_circuit
    {float table : Type} {astropy : Astropy float table}
    (coordinates catalog spatial radius width polygon : option (pyval float))
    (verbose : option bool) (w : world float) :
  let run :=
    query_region_async coordinates catalog spatial radius width polygon (Some true) w in
  network (fst run) = network w /\
  query_region coordinates catalog spatial radius width polygon (Some true) verbose w
    = run /\
  run =
    if is_None (default PyNone catalog)
    then (w, Raise (Exception "Catalog name is required!"))
    else
      match _parse_spatial (default default_spatial spatial)
              (default PyNone coordinates) (default default_radius radius)
              (default PyNone width) (default PyNone polygon) w with
      | (w1, Ok parsed) =>
          (w1, Ok (RPayload (dict_update (_args_to_payload (default PyNone catalog))
                               parsed)))
      | (w1, Raise e) => (w1, Raise e)
      end.
Proof.
  cbv zeta.
  assert (Hrun :
    query_region_async coordinates catalog spatial radius width polygon (Some true) w =
    if is_None (default PyNone catalog)
    then (w, Raise (Exception "Catalog name is required!"))
    else
      match _parse_spatial (default default_spatial spatial)
              (default PyNone coordinates) (default default_radius radius)
              (default PyNone width) (default PyNone polygon) w with
      | (w1, Ok parsed) =>
          (w1, Ok (RPayload (dict_update (_args_to_payload (default PyNone catalog))
                               parsed)))
      | (w1, Raise e) => (w1, Raise e)
      end).
  { unfold query_region_async. simpl.
    destruct (is_None (default PyNone catalog)); [reflexivity|].
    unfold bind.
    destruct (_parse_spatial _ _ _ _ _ w) as [w1 [parsed|e]]; reflexivity. }
  split; [|split; [|exact Hrun]].
  - rewrite Hrun.
    destruct (is_None (default PyNone catalog)); [reflexivity|].
    pose proof (keeps_network__parse_spatial (default default_spatial spatial)
                  (default PyNone coordinates) (default default_radius radius)
                  (default PyNone width) (default PyNone polygon) w) as Hnet.
    destruct (_parse_spatial _ _ _ _ _ w) as [w1 [parsed|e]]; exact Hnet.
  - unfold query_region. simpl.
    assert (Hsame :
      query_region_async coordinates catalog (Some (default default_spatial spatial))
        (Some (default default_radius radius)) width polygon (Some true) w =
      query_region_async coordinates catalog spatial radius width polygon (Some true) w)
      by reflexivity.
    unfold bind. rewrite Hsame.
    destruct (query_region_async _ _ _ _ _ _ _ w) as [w1 [r|e]]; reflexivity.
Qed.

(** ** An unknown spatial mode *)

(** C5 fails as stated for [query_region_async]: without a catalog name
    it refuses the call for that reason before it looks at the spatial
    mode, so the error for ['Triangle'] is not the one that names the
    modes. *)
Lemma unrecognized_spatial_without_catalog :
  existsb (py_eq_str (float := Demo.float) (PyStr "Triangle"))
    ["Cone"; "Box"; "Polygon"; "All-Sky"] = false /\
  query_region_async (astropy := Demo.demo) None None (Some (PyStr "Triangle"))
    None None None None Demo.quiet
  = (Demo.quiet, Raise (Exception "Catalog name is required!")) /\
  Exception "Catalog name is required!" <> ValueError unrecognized_spatial /\
  isinstance (Exception "Catalog name is required!") "ValueError" = false.
Proof.
  split; [reflexivity|]. split; [reflexivity|]. split; [discriminate|reflexivity].
Qed.

(** C5, amended.  For every spatial argument that is none of ['Cone'],
    ['Box'], ['Polygon'], ['All-Sky'], [_parse_spatial] raises a
    [ValueError] whose message names the four modes, and so does
    [query_region_async] whenever a catalog name is given; nothing is
    returned, warned, printed or sent. *)
Theorem unrecognized_spatial_raises
    {float table : Type} {astropy : Astropy float table}
    (spatial : pyval float)
    (coordinates catalog radius width polygon : option (pyval float))
    (get_query_payload : option bool) (w : world float) :
  existsb (py_eq_str spatial) ["Cone"; "Box"; "Polygon"; "All-Sky"] = false ->
  is_None (default PyNone catalog) = false ->
  _parse_spatial spatial (default PyNone coordinates) (default default_radius radius)
    (default PyNone width) (default PyNone polygon) w
  = (w, Raise (ValueError unrecognized_spatial)) /\
  query_region_async coordinates catalog (Some spatial) radius width polygon
    get_query_payload w
  = (w, Raise (ValueError unrecognized_spatial)) /\
  isinstance (ValueError unrecognized_spatial) "ValueError" = true /\
  forallb (fun name => str_contains name unrecognized_spatial)
    ["'Cone'"; "'Box'"; "'Polygon'"; "'All-Sky'"] = true.
Proof.
  intros Hs Hc.
  pose proof (_parse_spatial_unrecognized spatial (default PyNone coordinates)
                (default default_radius radius) (default PyNone width)
                (default PyNone polygon) w Hs) as Hp.
  split; [exact Hp|]. split; [|split; reflexivity].
  unfold query_region_async. rewrite Hc. unfold bind. simpl default at 1.
  rewrite Hp. reflexivity.
Qed.

Lemma unrecognized_spatial_raises_witness :
  query_region_async (astropy := Demo.demo) None (Some (PyStr "fp_psc"))
    (Some (PyStr "Triangle")) None None None None Demo.quiet
  = (Demo.quiet, Raise (ValueError unrecognized_spatial)).
Proof.
  exact (proj1 (proj2 (unrecognized_spatial_raises (astropy := Demo.demo)
           (PyStr "Triangle") None (Some (PyStr "fp_psc")) None None None None
           Demo.quiet eq_refl eq_refl))).
Defined.

(** ** Reading the response *)

Lemma suppress_step {float : Type} (verbose : bool) (w : world float) :
  exists w0,
    (if negb verbose then suppress_vo_warnings else ret tt) w = (w0, Ok tt) /\
    warnings w0 = warnings w /\ stdout w0 = stdout w /\ network w0 = network w.
Proof. destruct verbose; simpl; eexists; (split; [reflexivity|]); simpl; auto. Qed.

(** C6. Whenever the body of the response has the text
    [The catalog is not on the list] somewhere in it, whatever else it
    holds, [_parse_result] raises the catalog-not-found error. *)
Theorem catalog_not_on_list_raises
    {float table : Type} {astropy : Astropy float table}
    (response : response) (verbose : bool) (w : world float) :
  (exists pre post,
     content response = pre ++ "The catalog is not on the list" ++ post) ->
  exists w',
    _parse_result response verbose w = (w', Raise (Exception "Catalog not found")) /\
    warnings w' = warnings w /\ stdout w' = stdout w /\ network w' = network w.
Proof.
  intros H. apply str_contains_spec in H.
  destruct (suppress_step verbose w) as (w0 & Hw0 & Hrest).
  exists w0. split; [|exact Hrest].
  unfold _parse_result, bind. rewrite Hw0, H. reflexivity.
Qed.

Lemma catalog_not_on_list_raises_witness :
  exists w',
    _parse_result (astropy := Demo.demo)
      (Response "<html>The catalog is not on the list of Gator catalogs.</html>")
      false Demo.quiet
    = (w', Raise (Exception "Catalog not found")) /\
    warnings w' = [] /\ stdout w' = [] /\ network w' = [].
Proof.
  apply (catalog_not_on_list_raises (astropy := Demo.demo)
           (Response "<html>The catalog is not on the list of Gator catalogs.</html>")
           false Demo.quiet).
  exists "<html>", " of Gator catalogs.</html>". reflexivity.
Defined.

(** C8. A body that is not empty, has neither of the two error texts in
    it and makes the VOTable reader raise does not make [_parse_result]
    raise: the two lines about the failure are printed and the body
    itself is returned. *)
Theorem unparsable_body_returned_raw
    {float table : Type} {astropy : Astropy float table}
    (response : response) (verbose : bool) (w : world float) (ex : exn) :
  content response <> "" ->
  str_contains "The catalog is not on the list" (content response) = false ->
  str_contains "Either wrong or missing coordinate/object name" (content response)
    = false ->
  votable_first_table (content response) = Raise ex ->
  isinstance ex "Exception" = true ->
  exists w',
    _parse_result response verbose w = (w', Ok (RContent (content response))) /\
    stdout w' =
      (stdout w ++ ["Failed to parse votable! Returning raw result instead.";
                    exn_msg ex])%list /\
    warnings w' = warnings w /\ network w' = network w.
Proof.
  intros Hne Hcat Hobj Hparse Hex.
  destruct (suppress_step verbose w) as (w0 & Hw0 & Hwarn & Hout & Hnet).
  assert (Hlen : Nat.eqb (String.length (content response)) 0 = false).
  { destruct (content response); [congruence | reflexivity]. }
  eexists. split.
  - unfold _parse_result, bind at 1. rewrite Hw0, Hcat, Hobj, Hlen.
    unfold bind, try_except, lift, isinstance_any. rewrite Hparse. simpl existsb.
    rewrite Hex. simpl. reflexivity.
  - simpl. rewrite Hwarn, Hout, Hnet, <- app_assoc. auto.
Qed.

Lemma unparsable_body_returned_raw_witness :
  exists w',
    _parse_result (astropy := Demo.demo) (Response "garbage") false Demo.quiet
    = (w', Ok (RContent "garbage")) /\
    stdout w' = ["Failed to parse votable! Returning raw result instead.";
                 "syntax error: line 1, column 0"] /\
    warnings w' = [] /\ network w' = [].
Proof.
  apply (unparsable_body_returned_raw (astropy := Demo.demo) (Response "garbage")
           false Demo.quiet
           (Exn "ExpatError" standard_bases "syntax error: line 1, column 0"));
    [discriminate | reflexivity | reflexivity | reflexivity | reflexivity].
Defined.

(** ** The resolved dimension *)

Lemma unit_in_service_units (u : Unit) :
  existsb (Unit_eq_str u) ["arcsec"; "arcmin"; "deg"] = true <->
  u = arcsec \/ u = arcmin \/ u = deg.
Proof.
  split.
  - destruct u; simpl; intros H; try discriminate; auto.
  - intros [->|[->| ->]]; reflexivity.
Qed.

(** The ways [_parse_dimension] returns: a quantity in one of the
    service's units as it is, a quantity in another angular unit
    converted to degrees, anything else through [commons.parse_radius],
    in degrees. *)
Lemma _parse_dimension_returns
    {float table : Type} {astropy : Astropy float table}
    (dim : pyval float) (w w' : world float) (q : quantity float) :
  _parse_dimension dim w = (w', Ok q) ->
  (exists q0, dim = PyQuantity q0 /\ is_angle_unit (unit q0) = true /\
              (unit q0 = arcsec \/ unit q0 = arcmin \/ unit q0 = deg) /\ q = q0) \/
  (exists q0 v, dim = PyQuantity q0 /\ is_angle_unit (unit q0) = true /\
                Quantity_to_value q0 deg = Ok v /\ q = Quantity v deg) \/
  (exists d, parse_radius_degree dim = Ok d /\ q = Quantity (NFloat d) deg).
Proof.
  intros H.
  assert (Hother :
    try_except
      (new_dim_degree <- lift (parse_radius_degree dim) ;;
       ret (Quantity (NFloat new_dim_degree) deg))
      ["UnitsException"; "coordinates.errors.UnitsError"; "AttributeError"]
      (fun _ => raise (UnitsException "Dimension not in proper units")) w
    = (w', Ok q) ->
    exists d, parse_radius_degree dim = Ok d /\ q = Quantity (NFloat d) deg).
  { unfold try_except, bind, lift, ret, raise.
    destruct (parse_radius_degree dim) as [d|e].
    - intros [= _ <-]. now exists d.
    - destruct (isinstance_any e _); discriminate. }
  unfold _parse_dimension in H.
  destruct dim as [| | | | | |q0]; try (right; right; exact (Hother H)).
  destruct (is_angle_unit (unit q0)) eqn:Hangle; [|right; right; exact (Hother H)].
  destruct (existsb (Unit_eq_str (unit q0)) _) eqn:Hunit; simpl in H.
  - injection H as _ <-. left. exists q0. apply unit_in_service_units in Hunit. auto.
  - right; left. unfold lift, Quantity_to in H.
    destruct (Quantity_to_value q0 deg) as [v|e] eqn:Hv; [|discriminate H].
    injection H as _ <-. now exists q0, v.
Qed.

Lemma _parse_dimension_unit
    {float table : Type} {astropy : Astropy float table}
    (dim : pyval float) (w w' : world float) (q : quantity float) :
  _parse_dimension dim w = (w', Ok q) ->
  unit q = arcsec \/ unit q = arcmin \/ unit q = deg.
Proof.
  intros H. apply _parse_dimension_returns in H
    as [(q0 & _ & _ & Hu & ->)|[(q0 & v & _ & _ & _ & ->)|(d & _ & ->)]]; auto.
Qed.

Lemma _parse_dimension_snd
    {float table : Type} {astropy : Astropy float table}
    (dim : pyval float) (w0 w1 w : world float) (q : quantity float) :
  _parse_dimension dim w0 = (w1, Ok q) -> snd (_parse_dimension dim w) = Ok q.
Proof.
  intros H. rewrite (_parse_dimension_world dim w w0), H. reflexivity.
Qed.

(** C9. Whenever [_parse_dimension] returns, the unit of the quantity it
    returns is [arcsec], [arcmin] or [deg]; and so the [radunits] of the
    payload of a cone search is one of these three names. *)
Theorem resolved_unit_is_arcsec_arcmin_or_deg
    {float table : Type} {astropy : Astropy float table} :
  (forall (dim : pyval float) (w w' : world float) (q : quantity float),
     _parse_dimension dim w = (w', Ok q) ->
     unit q = arcsec \/ unit q = arcmin \/ unit q = deg) /\
  (forall (coordinates catalog spatial radius width polygon : option (pyval float))
          (get_query_payload : option bool) (w w' : world float)
          (r : returned float table),
     py_eq_str (default default_spatial spatial) "Cone" = true ->
     query_region_async coordinates catalog spatial radius width polygon
       get_query_payload w = (w', Ok r) ->
     exists p radunits,
       assembled_payload w w' r p /\
       p !! "radunits" = Some (PyStr radunits) /\
       (radunits = "arcsec" \/ radunits = "arcmin" \/ radunits = "deg")).
Proof.
  split; [exact _parse_dimension_unit|].
  intros coordinates catalog spatial radius width polygon gp w w' r Hs H.
  apply query_region_async_assembled in H as (w1 & sp & Hsp & H).
  apply _parse_spatial_Cone in Hsp as (w0 & o & q & _ & Hq & ->); [|exact Hs].
  eexists. exists (to_string (unit q)). split; [exact H|]. split.
  - apply lookup_dict_update. rewrite lookup_insert_ne by discriminate.
    apply lookup_insert_eq.
  - apply _parse_dimension_unit in Hq as [->|[->| ->]]; simpl; auto.
Qed.

Lemma resolved_unit_is_arcsec_arcmin_or_deg_witness :
  unit (Quantity (float := Demo.float) (NFloat 1%Z) deg) = arcsec \/
  unit (Quantity (float := Demo.float) (NFloat 1%Z) deg) = arcmin \/
  unit (Quantity (float := Demo.float) (NFloat 1%Z) deg) = deg.
Proof.
  exact (proj1 (resolved_unit_is_arcsec_arcmin_or_deg (astropy := Demo.demo))
           (PyStr "1d") Demo.quiet Demo.quiet _ eq_refl).
Defined.

(** ** Cone and box searches *)

(** C3. In the payload of a cone search, [radius] and [radunits] are the
    value and the unit string of the angle [_parse_dimension] resolved
    the radius to, the unit string as [to_string] gives it; and when the
    radius argument is left out they are [10] and ['arcsec']. *)
Theorem cone_radius_and_units
    {float table : Type} {astropy : Astropy float table}
    (coordinates catalog spatial radius width polygon : option (pyval float))
    (get_query_payload : option bool) (w w' : world float)
    (r : returned float table) :
  py_eq_str (default default_spatial spatial) "Cone" = true ->
  query_region_async coordinates catalog spatial radius width polygon
    get_query_payload w = (w', Ok r) ->
  exists p resolved,
    assembled_payload w w' r p /\
    snd (_parse_dimension (default default_radius radius) w) = Ok resolved /\
    p !! "radius" = Some (PyNum (value resolved)) /\
    p !! "radunits" = Some (PyStr (to_string (unit resolved))) /\
    (radius = None ->
     p !! "radius" = Some (PyNum (NInt 10)) /\
     p !! "radunits" = Some (PyStr "arcsec")).
Proof.
  intros Hs H.
  apply query_region_async_assembled in H as (w1 & sp & Hsp & H).
  apply _parse_spatial_Cone in Hsp as (w0 & o & q & _ & Hq & ->); [|exact Hs].
  assert (Hradius :
    dict_update (_args_to_payload (default PyNone catalog))
      (<["spatial" := default default_spatial spatial]>
         (<["radunits" := PyStr (to_string (unit q))]>
            (<["radius" := PyNum (value q)]> (<["objstr" := o]> ∅)))) !! "radius"
    = Some (PyNum (value q))).
  { apply lookup_dict_update. rewrite !lookup_insert_ne by discriminate.
    apply lookup_insert_eq. }
  assert (Hunits :
    dict_update (_args_to_payload (default PyNone catalog))
      (<["spatial" := default default_spatial spatial]>
         (<["radunits" := PyStr (to_string (unit q))]>
            (<["radius" := PyNum (value q)]> (<["objstr" := o]> ∅)))) !! "radunits"
    = Some (PyStr (to_string (unit q)))).
  { apply lookup_dict_update. rewrite lookup_insert_ne by discriminate.
    apply lookup_insert_eq. }
  eexists. exists q. split; [exact H|].
  split; [exact (_parse_dimension_snd _ _ _ w _ Hq)|].
  split; [exact Hradius|]. split; [exact Hunits|].
  intros ->. simpl in Hq. injection Hq as _ <-.
  split; [exact Hradius | exact Hunits].
Qed.

Lemma cone_radius_and_units_witness :
  exists p resolved,
    assembled_payload Demo.quiet
      (World ["Coordinate string is being interpreted as an ICRS coordinate."]
         [] [] false)
      (RPayload (table := Demo.table)
         (dict_update (_args_to_payload (astropy := Demo.demo) (PyStr "fp_psc"))
            (<["spatial" := PyStr "Cone"]>
               (<["radunits" := PyStr "arcsec"]>
                  (<["radius" := PyNum (NInt 10)]>
                     (<["objstr" := PyStr "10.0 +41.0"]> ∅)))))) p /\
    snd (_parse_dimension (astropy := Demo.demo) default_radius Demo.quiet)
      = Ok resolved /\
    p !! "radius" = Some (PyNum (value resolved)) /\
    p !! "radunits" = Some (PyStr (to_string (unit resolved))) /\
    ((None : option (pyval Demo.float)) = None ->
     p !! "radius" = Some (PyNum (NInt 10)) /\
     p !! "radunits" = Some (PyStr "arcsec")).
Proof.
  exact (cone_radius_and_units (astropy := Demo.demo)
           (Some (PyStr "10 +41")) (Some (PyStr "fp_psc")) None None None None
           (Some true) Demo.quiet _ _ eq_refl eq_refl).
Defined.

Lemma _parse_dimension_service_unit
    {float table : Type} {astropy : Astropy float table}
    (q : quantity float) (w : world float) :
  unit q = arcsec \/ unit q = arcmin \/ unit q = deg ->
  _parse_dimension (PyQuantity q) w = (w, Ok q).
Proof.
  intros Hu. unfold _parse_dimension.
  destruct Hu as [H|[H|H]]; rewrite H; reflexivity.
Qed.




(** ** Polygon searches *)

Section Polygons.
Context {float table : Type} {astropy : Astropy float table}.
Local Abbreviation pyval := (pyval float).
Local Abbreviation vertices := (list (number float * number float)).

(** A tuple is not something [_parse_coordinates] takes. *)
Lemma list_comprehension_tuple (items : list pyval) (rest : list pyval)
    (w : world float) :
  list_comprehension _parse_coordinates (PyTuple items :: rest) w =
  (w, Raise (TypeError "Argument cannot be parsed as a coordinate")).
Proof. reflexivity. Qed.

Lemma pair_to_string_vertex (v : number float * number float) (w : world float) :
  pair_to_string (vertex v) w = (w, Ok (spec_vertex_token v)).
Proof.
  destruct v as [ra dec].
  unfold pair_to_string, spec_vertex_token, vertex, bind, lift,
    _format_decimal_coords, format_sign, format_plain.
  simpl. destruct (number_minus dec); reflexivity.
Qed.

Lemma list_comprehension_pair_to_string (vs : vertices) (w : world float) :
  list_comprehension pair_to_string (map vertex vs) w =
  (w, Ok (map spec_vertex_token vs)).
Proof.
  induction vs as [|v vs IH]; [reflexivity|].
  simpl. unfold bind at 1. rewrite pair_to_string_vertex.
  unfold bind at 1. rewrite IH. reflexivity.
Qed.

Lemma pair_to_degrees_vertex (v : number float * number float) (w : world float) :
  pair_to_degrees (vertex v) w =
  (w, match Angle_degree (PyNum (fst v)) with
      | Ok ra =>
          match Angle_degree (PyNum (snd v)) with
          | Ok dec => Ok (vertex (NFloat ra, NFloat dec))
          | Raise e => Raise e
          end
      | Raise e => Raise e
      end).
Proof.
  destruct v as [ra dec]. unfold pair_to_degrees, vertex, bind, lift, ret. simpl.
  destruct (Angle_degree (PyNum ra)); [|reflexivity].
  destruct (Angle_degree (PyNum dec)); reflexivity.
Qed.

(** Converting the vertices touches nothing, and when it goes through,
    every vertex has been read in degrees. *)
Lemma list_comprehension_pair_to_degrees (vs : vertices) (w : world float) :
  exists outcome,
    list_comprehension pair_to_degrees (map vertex vs) w = (w, outcome) /\
    forall pairs, outcome = Ok pairs ->
      exists vs', pairs = map vertex vs' /\ Forall2 in_degrees vs vs'.
Proof.
  induction vs as [|v vs (outcome & IH & Hok)].
  - eexists. split; [reflexivity|]. intros pairs [= <-]. now exists [].
  - simpl. unfold bind at 1. rewrite pair_to_degrees_vertex.
    destruct (Angle_degree (PyNum (fst v))) as [ra|e] eqn:Hra;
      [|eexists; split; [reflexivity|discriminate]].
    destruct (Angle_degree (PyNum (snd v))) as [dec|e] eqn:Hdec;
      [|eexists; split; [reflexivity|discriminate]].
    unfold bind at 1. rewrite IH.
    destruct outcome as [pairs|e]; [|eexists; split; [reflexivity|discriminate]].
    eexists. split; [reflexivity|]. intros ? [= <-].
    destruct (Hok pairs eq_refl) as (vs' & -> & Hall).
    exists ((NFloat ra, NFloat dec) :: vs'). split; [reflexivity|].
    constructor; [|exact Hall]. now exists ra, dec.
Qed.

(** The vertices of a polygon given as pairs of numbers: when the [try]
    statement completes, [coordinates_list] holds one token for each
    pair, made of the numbers as given or of their values in degrees. *)
Lemma polygon_vertices_pairs (vs : vertices) (w w' : world float)
    (polygon' : pyval) (coordinates_list : option (list string)) :
  polygon_vertices (PyList (map vertex vs)) w = (w', Ok (polygon', coordinates_list)) ->
  exists vs',
    (vs' = vs \/ Forall2 in_degrees vs vs') /\
    coordinates_list = Some (map spec_vertex_token vs').
Proof.
  destruct vs as [|v vs].
  - intros [= _ _ <-]. exists []. auto.
  - unfold polygon_vertices, try_except at 1.
    change (map vertex (v :: vs)) with (vertex v :: map vertex vs).
    unfold bind at 1. unfold lift at 1. cbn [py_iter].
    unfold bind at 1. unfold vertex at 1. rewrite list_comprehension_tuple.
    cbn [isinstance_any existsb isinstance TypeError exn_class exn_bases
         standard_bases String.eqb Ascii.eqb Bool.eqb orb].
    unfold bind at 1. unfold lift at 1. cbn [py_getitem nth_error is_tuple vertex].
    unfold bind at 1, try_except at 1, bind at 1, lift at 1. cbn [py_iter].
    unfold bind at 1.
    destruct (list_comprehension_pair_to_degrees (v :: vs) w)
      as (outcome & Hrun & Hok).
    change (vertex v :: map vertex vs) with (map vertex (v :: vs)).
    rewrite Hrun. destruct outcome as [pairs|e].
    + destruct (Hok pairs eq_refl) as (vs' & -> & Hall).
      unfold ret at 1. unfold bind at 1, lift at 1. cbn [py_iter].
      unfold bind at 1. rewrite list_comprehension_pair_to_string.
      intros [= _ _ <-]. exists vs'. auto.
    + destruct (isinstance_any e ["UnitsException"]); [|discriminate].
      unfold bind at 1, warn at 1. unfold ret at 1.
      unfold bind at 1, lift at 1. cbn [py_iter].
      unfold bind at 1. rewrite list_comprehension_pair_to_string.
      intros [= _ _ <-]. exists (v :: vs). auto.
Qed.

Lemma spec_vertex_token_no_comma (v : number float * number float) :
  (forall f, str_has comma (float_digits f) = false) ->
  str_has comma (spec_vertex_token v) = false.
Proof.
  intros Hfloat.
  assert (Hdigits : forall n, str_has comma (number_digits n) = false).
  { intros [z|f]; [apply int_digits_no_comma | apply Hfloat]. }
  unfold spec_vertex_token. rewrite !str_has_app. cbn [str_has].
  rewrite !Hdigits.
  destruct (number_minus (fst v)), (number_minus (snd v)); reflexivity.
Qed.

(** When the handler does not find a tuple first, the [try] statement
    completes with [coordinates_list] left unbound. *)
Lemma polygon_vertices_unbound (polygon : pyval) (items : list pyval)
    (first : pyval) (w : world float) :
  py_iter polygon = Ok items ->
  (forall w1, exists w2 e,
     list_comprehension _parse_coordinates items w1 = (w2, Raise e) /\
     isinstance_any e ["ValueError"; "TypeError"] = true) ->
  py_getitem polygon 0 = Ok first ->
  is_tuple first = false ->
  exists w2, polygon_vertices polygon w = (w2, Ok (polygon, None)).
Proof.
  intros Hiter Hraise Hfirst Htuple.
  destruct (Hraise w) as (w2 & e & Hrun & Hcatch).
  exists w2. unfold polygon_vertices, try_except, bind, lift.
  rewrite Hiter, Hrun, Hcatch, Hfirst, Htuple. reflexivity.
Qed.

End Polygons.

(** For a polygon given as a list of N pairs of numbers, the value
    at [polygon] in the payload is the join, with commas, of exactly N
    tokens, one for each pair and in their order; a token is the right
    ascension, a blank, and the declination behind its sign, [+] unless
    the declination prints with a minus, both numbers in decimal degrees
    as given or as [coord.Angle] reads them; no token has a comma in it,
    so that splitting the value at the commas gives the N tokens back. *)
Theorem polygon_tokens
    {float table : Type} {astropy : Astropy float table}
    (pairs : list (number float * number float))
    (coordinates catalog spatial radius width : option (pyval float))
    (get_query_payload : option bool) (w w' : world float)
    (r : returned float table) :
  (forall f, str_has comma (float_digits f) = false) ->
  py_eq_str (default default_spatial spatial) "Polygon" = true ->
  query_region_async coordinates catalog spatial radius width
    (Some (PyList (map vertex pairs))) get_query_payload w = (w', Ok r) ->
  exists p vertices,
    assembled_payload w w' r p /\
    (vertices = pairs \/ Forall2 in_degrees pairs vertices) /\
    length vertices = length pairs /\
    p !! "polygon" =
      Some (PyStr (String.concat "," (map spec_vertex_token vertices))) /\
    Forall (fun token => str_has comma token = false)
      (map spec_vertex_token vertices) /\
    (pairs <> [] ->
     str_split comma (String.concat "," (map spec_vertex_token vertices)) =
     map spec_vertex_token vertices).
Proof.
  intros Hfloat Hs H.
  apply query_region_async_assembled in H as (w1 & sp & Hsp & H).
  apply _parse_spatial_Polygon in Hsp as (w0 & c & pg & cl & _ & Hpoly & ->);
    [|exact Hs].
  apply polygon_vertices_pairs in Hpoly as (vs' & Hvs & [= ->]).
  assert (Hlen : length vs' = length pairs).
  { destruct Hvs as [->|Hall]; [reflexivity|].
    symmetry. exact (Forall2_length _ _ _ Hall). }
  assert (Hcomma : Forall (fun token => str_has comma token = false)
                     (map spec_vertex_token vs')).
  { clear -Hfloat. induction vs' as [|v vs' IH]; simpl; constructor;
      [now apply spec_vertex_token_no_comma | exact IH]. }
  eexists. exists vs'. split; [exact H|]. split; [exact Hvs|].
  split; [exact Hlen|]. split; [|split; [exact Hcomma|]].
  - apply lookup_dict_update. rewrite lookup_insert_ne by discriminate.
    apply lookup_insert_eq.
  - intros Hne. apply str_split_concat; [|exact Hcomma].
    destruct vs'; [|discriminate].
    destruct pairs; [congruence | discriminate Hlen].
Qed.

Lemma demo_float_no_comma (f : Demo.float) :
  str_has comma (float_digits (Astropy := Demo.demo) f) = false.
Proof.
  unfold float_digits, Demo.demo.
  now rewrite str_has_app, int_digits_no_comma.
Qed.

Lemma polygon_tokens_witness :
  exists p vertices,
    assembled_payload Demo.quiet
      (World
         ["Polygon endpoints are being interpreted as RA/Dec pairs specified in decimal degree units."]
         [] [] false)
      (RPayload (table := Demo.table)
         (dict_update (_args_to_payload (astropy := Demo.demo) (PyStr "fp_psc"))
            (<["spatial" := PyStr "Polygon"]>
               (<["polygon" := PyStr "10 -20,30.0 +40"]> ∅)))) p /\
    (vertices = [(NInt 10, NInt (-20)); (NFloat 30%Z, NInt 40)] \/
     Forall2 (in_degrees (astropy := Demo.demo))
       [(NInt 10, NInt (-20)); (NFloat 30%Z, NInt 40)] vertices) /\
    length vertices = 2 /\
    p !! "polygon" =
      Some (PyStr (String.concat ","
                     (map (spec_vertex_token (astropy := Demo.demo)) vertices))) /\
    Forall (fun token => str_has comma token = false)
      (map (spec_vertex_token (astropy := Demo.demo)) vertices) /\
    ([(NInt 10, NInt (-20)); (NFloat 30%Z, NInt 40)]
       <> ([] : list (number Demo.float * number Demo.float)) ->
     str_split comma
       (String.concat "," (map (spec_vertex_token (astropy := Demo.demo)) vertices)) =
     map (spec_vertex_token (astropy := Demo.demo)) vertices).
Proof.
  exact (polygon_tokens (astropy := Demo.demo)
           [(NInt 10, NInt (-20)); (NFloat 30%Z, NInt 40)]
           None (Some (PyStr "fp_psc")) (Some (PyStr "Polygon")) None None
           (Some true) Demo.quiet _ _ demo_float_no_comma eq_refl eq_refl).
Defined.

(** C10. When the elements of the polygon do not parse as coordinates,
    the list comprehension raising a [ValueError] or a [TypeError], and
    the first element is not a tuple, [_parse_spatial] returns no payload:
    it raises, and once the center coordinates are dealt with what it
    raises is the [UnboundLocalError] for [coordinates_list], not an
    error about units. *)
Theorem polygon_without_tuples_raises
    {float table : Type} {astropy : Astropy float table}
    (polygon first coordinates radius width : pyval float)
    (items : list (pyval float)) (w : world float) :
  py_iter polygon = Ok items ->
  (forall w1, exists w2 e,
     list_comprehension _parse_coordinates items w1 = (w2, Raise e) /\
     isinstance_any e ["ValueError"; "TypeError"] = true) ->
  py_getitem polygon 0 = Ok first ->
  is_tuple first = false ->
  exists w' e,
    _parse_spatial (PyStr "Polygon") coordinates radius width polygon w
      = (w', Raise e) /\
    ((is_None coordinates = true \/
      exists w0 objstr, objstr_of coordinates w = (w0, Ok objstr)) ->
     e = UnboundLocalError
           "local variable 'coordinates_list' referenced before assignment" /\
     isinstance e "UnitsException" = false).
Proof.
  intros Hiter Hraise Hfirst Htuple.
  unfold _parse_spatial. cbn [py_eq_str String.eqb Ascii.eqb Bool.eqb existsb orb].
  destruct (is_None coordinates) eqn:Hnone; cbn [negb].
  - destruct (polygon_vertices_unbound polygon items first w
                Hiter Hraise Hfirst Htuple) as (w2 & Hrun).
    unfold bind at 1. unfold ret at 1. unfold bind at 1. rewrite Hrun.
    eexists _, _. split; [reflexivity|]. intros _. split; reflexivity.
  - unfold bind at 1, bind at 1.
    destruct (objstr_of coordinates w) as [w0 [objstr|e]] eqn:Hobj.
    + destruct (polygon_vertices_unbound polygon items first w0
                  Hiter Hraise Hfirst Htuple) as (w2 & Hrun).
      unfold ret at 1. unfold bind at 1. rewrite Hrun.
      eexists _, _. split; [reflexivity|]. intros _. split; reflexivity.
    + eexists _, _. split; [reflexivity|].
      intros [Hn|(w1 & o & Ho)]; discriminate.
Qed.

Lemma polygon_without_tuples_raises_witness :
  exists w' e,
    _parse_spatial (astropy := Demo.demo) (PyStr "Polygon") PyNone default_radius
      PyNone (PyList [PyNum (NInt 1); PyNum (NInt 2)]) Demo.quiet
      = (w', Raise e) /\
    ((is_None (float := Demo.float) PyNone = true \/
      exists w0 objstr,
        objstr_of (astropy := Demo.demo) PyNone Demo.quiet = (w0, Ok objstr)) ->
     e = UnboundLocalError
           "local variable 'coordinates_list' referenced before assignment" /\
     isinstance e "UnitsException" = false).
Proof.
  apply (polygon_without_tuples_raises (astropy := Demo.demo)
           (PyList [PyNum (NInt 1); PyNum (NInt 2)]) (PyNum (NInt 1))
           PyNone default_radius PyNone [PyNum (NInt 1); PyNum (NInt 2)] Demo.quiet).
  - reflexivity.
  - intros w1. eexists _, _. split; reflexivity.
  - reflexivity.
  - reflexivity.
Defined.

(** * Further properties *)

(** ** Payload assembly only issues warnings *)

Section Warnings.
Context {float table : Type} {astropy : Astropy float table}.
Local Abbreviation pyval := (pyval float).
Local Abbreviation M := (M float).

Lemma world_eta (w : world float) :
  w = World (warnings w ++ []) (stdout w) (network w) (vo_warnings_suppressed w).
Proof. destruct w; simpl. now rewrite app_nil_r. Qed.

Lemma only_warns_ret {A} (a : A) : only_warns (ret a : M A).
Proof. intros w. exists []. apply world_eta. Qed.

Lemma only_warns_raise {A} (e : exn) : only_warns (raise e : M A).
Proof. intros w. exists []. apply world_eta. Qed.

Lemma only_warns_lift {A} (r : result A) : only_warns (lift r : M A).
Proof. intros w. exists []. apply world_eta. Qed.

Lemma only_warns_warn (msg : string) : only_warns (warn (float := float) msg).
Proof. intros w. now exists [msg]. Qed.

Lemma only_warns_bind {A B} (c : M A) (k : A -> M B) :
  only_warns c -> (forall a, only_warns (k a)) -> only_warns (bind c k).
Proof.
  intros Hc Hk w. unfold bind. destruct (Hc w) as [issued Hw].
  destruct (c w) as [w1 [a|e]]; simpl in *; [|now exists issued].
  destruct (Hk a w1) as [issued' Hw']. exists (issued ++ issued')%list.
  rewrite Hw'. subst w1. simpl. now rewrite app_assoc.
Qed.

Lemma only_warns_try_except {A} (body : M A) (classes : list string)
    (handler : exn -> M A) :
  only_warns body -> (forall e, only_warns (handler e)) ->
  only_warns (try_except body classes handler).
Proof.
  intros Hb Hh w. unfold try_except. destruct (Hb w) as [issued Hw].
  destruct (body w) as [w1 [a|e]]; simpl in *; [now exists issued|].
  destruct (isinstance_any e classes); simpl; [|now exists issued].
  destruct (Hh e w1) as [issued' Hw']. exists (issued ++ issued')%list.
  rewrite Hw'. subst w1. simpl. now rewrite app_assoc.
Qed.

Lemma only_warns_list_comprehension {A B} (f : A -> M B) (l : list A) :
  (forall x, only_warns (f x)) -> only_warns (list_comprehension f l).
Proof.
  intros Hf. induction l as [|x l IH]; simpl.
  - apply only_warns_ret.
  - apply only_warns_bind; [apply Hf|]. intros y.
    apply only_warns_bind; [apply IH|]. intros ys. apply only_warns_ret.
Qed.

Ltac only_warns :=
  repeat first
    [ apply only_warns_ret | apply only_warns_raise | apply only_warns_lift
    | apply only_warns_warn
    | apply only_warns_bind; [|intros ?]
    | apply only_warns_try_except; [|intros ?]
    | apply only_warns_list_comprehension; intros ?
    | match goal with
      | |- only_warns (if ?b then _ else _) => destruct b
      | |- only_warns (match ?x with _ => _ end) => destruct x
      end ].

Lemma only_warns__parse_coordinates (coordinates : pyval) :
  only_warns (_parse_coordinates coordinates).
Proof. unfold _parse_coordinates. only_warns. Qed.

Lemma only_warns_objstr_of (coordinates : pyval) :
  only_warns (objstr_of coordinates).
Proof.
  unfold objstr_of. apply only_warns_bind.
  - unfold _is_coordinate. only_warns.
  - intros b. destruct (negb b); [apply only_warns_ret|].
    apply only_warns_bind; [apply only_warns__parse_coordinates|].
    intros s. apply only_warns_ret.
Qed.

Lemma only_warns__parse_dimension (dim : pyval) : only_warns (_parse_dimension dim).
Proof.
  intros w. exists []. rewrite _parse_dimension_pure. apply world_eta.
Qed.

Lemma only_warns_polygon_vertices (polygon : pyval) :
  only_warns (polygon_vertices polygon).
Proof.
  unfold polygon_vertices. apply only_warns_try_except.
  - apply only_warns_bind; [apply only_warns_lift|]. intros items.
    apply only_warns_bind; [|intros; apply only_warns_ret].
    apply only_warns_list_comprehension, only_warns__parse_coordinates.
  - intros _. apply only_warns_bind; [apply only_warns_lift|]. intros first.
    destruct (is_tuple first); [|apply only_warns_ret].
    apply only_warns_bind.
    + apply only_warns_try_except.
      * apply only_warns_bind; [apply only_warns_lift|]. intros items.
        apply only_warns_bind; [|intros; apply only_warns_ret].
        apply only_warns_list_comprehension. intros pair.
        unfold pair_to_degrees. only_warns.
      * intros _. only_warns.
    + intros pg. apply only_warns_bind; [apply only_warns_lift|]. intros items.
      apply only_warns_bind; [|intros; apply only_warns_ret].
      apply only_warns_list_comprehension. intros pair.
      unfold pair_to_string. only_warns.
Qed.

(** X1. Whatever its arguments and whether it returns or raises, all
    [_parse_spatial] does to the world is to add warnings after those
    already issued: it prints nothing, sends nothing and leaves the
    VOTable warnings as they were. *)
Theorem _parse_spatial_only_warns
    (spatial coordinates radius width polygon : pyval) (w : world float) :
  exists issued,
    fst (_parse_spatial spatial coordinates radius width polygon w) =
    World (warnings w ++ issued) (stdout w) (network w) (vo_warnings_suppressed w).
Proof.
  revert w. change (only_warns (_parse_spatial spatial coordinates radius width polygon)).
  unfold _parse_spatial.
  destruct (py_eq_str spatial "All-Sky"); [apply only_warns_ret|].
  destruct (existsb _ _).
  - apply only_warns_bind; [apply only_warns_objstr_of|]. intros o.
    destruct (py_eq_str spatial "Cone").
    + apply only_warns_bind; [apply only_warns__parse_dimension|].
      intros q. apply only_warns_ret.
    + apply only_warns_bind; [apply only_warns__parse_dimension|].
      intros q. apply only_warns_bind; [apply only_warns_lift|].
      intros sz. apply only_warns_ret.
  - destruct (py_eq_str spatial "Polygon"); [|apply only_warns_raise].
    apply only_warns_bind.
    + destruct (negb _); [|apply only_warns_ret].
      apply only_warns_bind; [apply only_warns_objstr_of|].
      intros o. apply only_warns_ret.
    + intros rp. apply only_warns_bind; [apply only_warns_polygon_vertices|].
      intros [pg [cl|]]; simpl; [apply only_warns_ret|apply only_warns_raise].
Qed.

End Warnings.

(** ** More on reading the response *)

Section Responses.
Context {float table : Type} {astropy : Astropy float table}.

(** X2. A response with an empty body always raises the empty-reply
    error: an empty body has neither of the two error texts in it, so the
    length check is reached, whatever [verbose] is; nothing is printed,
    warned or sent. *)
Theorem empty_body_raises (response : response) (verbose : bool) (w : world float) :
  content response = "" ->
  exists w',
    _parse_result response verbose w =
      (w', Raise (Exception "The IRSA server sent back an empty reply")) /\
    warnings w' = warnings w /\ stdout w' = stdout w /\ network w' = network w.
Proof.
  intros Hempty.
  destruct (suppress_step verbose w) as (w0 & Hw0 & Hrest).
  exists w0. split; [|exact Hrest].
  unfold _parse_result, bind. rewrite Hw0, Hempty. reflexivity.
Qed.

(** X3. A body that has the text about a wrong or missing coordinate or
    object name in it, and not the text about the catalog, raises the
    malformed-name error, whatever else it holds. *)
Theorem malformed_name_text_raises (response : response) (verbose : bool)
    (w : world float) :
  str_contains "The catalog is not on the list" (content response) = false ->
  (exists pre post,
     content response =
     pre ++ "Either wrong or missing coordinate/object name" ++ post) ->
  exists w',
    _parse_result response verbose w =
      (w', Raise (Exception "Malformed coordinate/object name")) /\
    warnings w' = warnings w /\ stdout w' = stdout w /\ network w' = network w.
Proof.
  intros Hcat H. apply str_contains_spec in H.
  destruct (suppress_step verbose w) as (w0 & Hw0 & Hrest).
  exists w0. split; [|exact Hrest].
  unfold _parse_result, bind. rewrite Hw0, Hcat, H. reflexivity.
Qed.

(** X4. When the VOTable reader accepts a body that is not empty and has
    neither error text in it, [_parse_result] returns the reader's table;
    it prints nothing, and it warns, once, exactly when the table has no
    rows. *)
Theorem parsed_table_returned (response : response) (verbose : bool)
    (w : world float) (first_table : table) :
  content response <> "" ->
  str_contains "The catalog is not on the list" (content response) = false ->
  str_contains "Either wrong or missing coordinate/object name" (content response)
    = false ->
  votable_first_table (content response) = Ok first_table ->
  exists w',
    _parse_result response verbose w = (w', Ok (RTable first_table)) /\
    warnings w' =
      (warnings w ++
       if Nat.eqb (table_len first_table) 0
       then ["Query returned no results, so the table will be empty"]
       else [])%list /\
    stdout w' = stdout w /\ network w' = network w.
Proof.
  intros Hne Hcat Hobj Hparse.
  destruct (suppress_step verbose w) as (w0 & Hw0 & Hwarn & Hout & Hnet).
  assert (Hlen : Nat.eqb (String.length (content response)) 0 = false).
  { destruct (content response); [congruence | reflexivity]. }
  unfold _parse_result, bind at 1. rewrite Hw0, Hcat, Hobj, Hlen.
  unfold bind at 1, try_except, bind, lift. rewrite Hparse. unfold ret at 1.
  destruct (Nat.eqb (table_len first_table) 0); eexists;
    (split; [reflexivity|]); simpl; rewrite Hwarn, Hout, Hnet, ?app_nil_r; auto.
Qed.

(** X5. What [_parse_result] returns, when it returns, is the table the
    reader made of the body or the body itself, the latter only when the
    reader raised; and a body it returns anything for is not empty and
    has neither error text in it. *)
Theorem _parse_result_returns (response : response) (verbose : bool)
    (w w' : world float) (r : returned float table) :
  _parse_result response verbose w = (w', Ok r) ->
  content response <> "" /\
  str_contains "The catalog is not on the list" (content response) = false /\
  str_contains "Either wrong or missing coordinate/object name" (content response)
    = false /\
  ((exists first_table,
      votable_first_table (content response) = Ok first_table /\
      r = RTable first_table) \/
   (exists ex,
      votable_first_table (content response) = Raise ex /\
      isinstance ex "Exception" = true /\
      r = RContent (content response))).
Proof.
  intros H. unfold _parse_result in H. unfold bind at 1 in H.
  destruct (suppress_step verbose w) as (w0 & Hw0 & _). rewrite Hw0 in H.
  destruct (str_contains "The catalog is not on the list" (content response));
    [discriminate H|].
  destruct (str_contains "Either wrong or missing coordinate/object name"
              (content response)); [discriminate H|].
  destruct (Nat.eqb (String.length (content response)) 0) eqn:Hlen;
    [discriminate H|].
  split; [intros Hempty; rewrite Hempty in Hlen; discriminate Hlen|].
  split; [reflexivity|]. split; [reflexivity|].
  unfold bind at 1, try_except, bind at 1, lift, isinstance_any in H.
  destruct (votable_first_table (content response)) as [t|ex].
  - left. exists t. split; [reflexivity|].
    unfold ret at 1 in H. unfold bind in H.
    destruct (Nat.eqb (table_len t) 0); simpl in H; now injection H as _ <-.
  - right. exists ex. split; [reflexivity|]. simpl existsb in H.
    rewrite orb_false_r in H.
    destruct (isinstance ex "Exception"); [|discriminate H].
    split; [reflexivity|]. simpl in H. now injection H as _ <-.
Qed.

(** X6. On every run of [_parse_result], returning or raising, nothing
    is sent and no earlier warning or printed line is lost; the VOTable
    warnings end up silenced exactly when they were before or [verbose]
    is false. *)
Theorem _parse_result_world (response : response) (verbose : bool)
    (w : world float) :
  exists warned printed,
    fst (_parse_result response verbose w) =
    World (warnings w ++ warned) (stdout w ++ printed) (network w)
      (vo_warnings_suppressed w || negb verbose).
Proof.
  assert (Hstart :
    (if negb verbose then suppress_vo_warnings else ret tt) w =
    (World (warnings w ++ []) (stdout w ++ []) (network w)
       (vo_warnings_suppressed w || negb verbose), Ok tt)).
  { destruct w, verbose; simpl; unfold suppress_vo_warnings, ret; simpl;
      rewrite !app_nil_r, ?orb_true_r, ?orb_false_r; reflexivity. }
  unfold _parse_result, bind at 1. rewrite Hstart.
  destruct (str_contains "The catalog is not on the list" (content response));
    [now exists [], []|].
  destruct (str_contains "Either wrong or missing coordinate/object name"
              (content response)); [now exists [], []|].
  destruct (Nat.eqb (String.length (content response)) 0); [now exists [], []|].
  unfold bind at 1, try_except, bind at 1, lift.
  destruct (votable_first_table (content response)) as [t|ex].
  - unfold ret at 1, bind.
    destruct (Nat.eqb (table_len t) 0); simpl.
    + exists ["Query returned no results, so the table will be empty"], [].
      now rewrite app_nil_r.
    + now exists [], [].
  - destruct (isinstance_any ex ["Exception"]); [|now exists [], []].
    simpl. exists [], ["Failed to parse votable! Returning raw result instead.";
                      exn_msg ex].
    now rewrite !app_nil_r, <- app_assoc.
Qed.

End Responses.

Lemma empty_body_raises_witness :
  exists w',
    _parse_result (astropy := Demo.demo) (Response "") false Demo.quiet =
      (w', Raise (Exception "The IRSA server sent back an empty reply")) /\
    warnings w' = [] /\ stdout w' = [] /\ network w' = [].
Proof.
  exact (empty_body_raises (astropy := Demo.demo) (Response "") false Demo.quiet
           eq_refl).
Defined.

Lemma malformed_name_text_raises_witness :
  exists w',
    _parse_result (astropy := Demo.demo)
      (Response "ERROR: Either wrong or missing coordinate/object name.") true
      Demo.quiet =
      (w', Raise (Exception "Malformed coordinate/object name")) /\
    warnings w' = [] /\ stdout w' = [] /\ network w' = [].
Proof.
  apply (malformed_name_text_raises (astropy := Demo.demo)
           (Response "ERROR: Either wrong or missing coordinate/object name.") true
           Demo.quiet eq_refl).
  exists "ERROR: ", ".". reflexivity.
Defined.

Lemma parsed_table_returned_witness :
  exists w',
    _parse_result (astropy := Demo.demo) (Response "<VOTABLE></VOTABLE>") false
      Demo.quiet = (w', Ok (RTable 0%nat)) /\
    warnings w' = ["Query returned no results, so the table will be empty"] /\
    stdout w' = [] /\ network w' = [].
Proof.
  apply (parsed_table_returned (astropy := Demo.demo)
           (Response "<VOTABLE></VOTABLE>") false Demo.quiet 0%nat);
    [discriminate | reflexivity | reflexivity | reflexivity].
Defined.

Lemma _parse_result_returns_witness :
  "garbage" <> "" /\
  str_contains "The catalog is not on the list" "garbage" = false /\
  str_contains "Either wrong or missing coordinate/object name" "garbage" = false /\
  ((exists first_table,
      votable_first_table (Astropy := Demo.demo) "garbage" = Ok first_table /\
      RContent (float := Demo.float) "garbage" = RTable first_table) \/
   (exists ex,
      votable_first_table (Astropy := Demo.demo) "garbage" = Raise ex /\
      isinstance ex "Exception" = true /\
      RContent (float := Demo.float) (table := Demo.table) "garbage"
        = RContent "garbage")).
Proof.
  exact (_parse_result_returns (astropy := Demo.demo) (Response "garbage") false
           Demo.quiet _ _ eq_refl).
Defined.

(** ** Sending the query *)

Lemma py_eq_str_true {float : Type} (v : pyval float) (s : string) :
  py_eq_str v s = true -> v = PyStr s.
Proof.
  destruct v; try discriminate. simpl. intros H.
  apply String.eqb_eq in H. now subst.
Qed.

(** A spatial argument that [_parse_spatial] returns a payload for is
    the name of one of the four modes. *)
Lemma _parse_spatial_mode {float table : Type} {astropy : Astropy float table}
    (spatial coordinates radius width polygon : pyval float)
    (w w' : world float) (sp : gmap string (pyval float)) :
  _parse_spatial spatial coordinates radius width polygon w = (w', Ok sp) ->
  exists m, spatial = PyStr (mode_name m).
Proof.
  intros H. unfold _parse_spatial in H.
  destruct (py_eq_str spatial "All-Sky") eqn:Ha;
    [exists AllSky; now apply py_eq_str_true|].
  cbn [existsb] in H.
  destruct (py_eq_str spatial "Cone") eqn:Hc;
    [exists Cone; now apply py_eq_str_true|].
  destruct (py_eq_str spatial "Box") eqn:Hb;
    [exists Box; now apply py_eq_str_true|].
  cbn [orb] in H.
  destruct (py_eq_str spatial "Polygon") eqn:Hp;
    [exists Polygon; now apply py_eq_str_true|].
  discriminate H.
Qed.

(** X7. A call without a catalog name, left out or [None], is refused
    before anything else is looked at: [query_region_async] and
    [query_region] raise the missing-catalog error whatever the other
    arguments are, even an unknown spatial mode or coordinates that would
    not parse, and the world is left as it was. *)
Theorem missing_catalog_raises
    {float table : Type} {astropy : Astropy float table}
    (coordinates catalog spatial radius width polygon : option (pyval float))
    (get_query_payload verbose : option bool) (w : world float) :
  is_None (default PyNone catalog) = true ->
  query_region_async coordinates catalog spatial radius width polygon
    get_query_payload w = (w, Raise (Exception "Catalog name is required!")) /\
  query_region coordinates catalog spatial radius width polygon
    get_query_payload verbose w = (w, Raise (Exception "Catalog name is required!")).
Proof.
  intros Hc.
  assert (Hq : forall sp rd gp,
    query_region_async coordinates catalog sp rd width polygon gp w =
    (w, Raise (Exception "Catalog name is required!"))).
  { intros sp rd gp. unfold query_region_async. now rewrite Hc. }
  split; [apply Hq|].
  unfold query_region, bind. now rewrite Hq.
Qed.

Lemma missing_catalog_raises_witness :
  query_region_async (astropy := Demo.demo) (Some (PyStr "M31")) (Some PyNone)
    (Some (PyStr "Triangle")) None None None None Demo.quiet
    = (Demo.quiet, Raise (Exception "Catalog name is required!")) /\
  query_region (astropy := Demo.demo) (Some (PyStr "M31")) (Some PyNone)
    (Some (PyStr "Triangle")) None None None None None Demo.quiet
    = (Demo.quiet, Raise (Exception "Catalog name is required!")).
Proof.
  exact (missing_catalog_raises (astropy := Demo.demo) (Some (PyStr "M31"))
           (Some PyNone) (Some (PyStr "Triangle")) None None None None None
           Demo.quiet eq_refl).
Defined.

(** X8. When the payload is not asked for and assembling it goes
    through, [query_region_async] sends exactly one request, a [GET] to
    [IRSA_URL] with the assembled payload and [TIMEOUT], after the
    warnings of the assembly; it returns the response of the server, and
    an error of the transport is raised as it is, the request having been
    sent. *)
Theorem query_sends_one_get_request
    {float table : Type} {astropy : Astropy float table}
    (coordinates catalog spatial radius width polygon : option (pyval float))
    (get_query_payload : option bool) (w w1 : world float)
    (parsed : gmap string (pyval float)) :
  is_None (default PyNone catalog) = false ->
  default false get_query_payload = false ->
  _parse_spatial (default default_spatial spatial) (default PyNone coordinates)
    (default default_radius radius) (default PyNone width)
    (default PyNone polygon) w = (w1, Ok parsed) ->
  let rq :=
    Request IRSA_URL (dict_update (_args_to_payload (default PyNone catalog)) parsed)
      TIMEOUT "GET" in
  query_region_async coordinates catalog spatial radius width polygon
    get_query_payload w =
  (World (warnings w1) (stdout w) (network w ++ [rq]) (vo_warnings_suppressed w),
   match http rq with
   | Ok response => Ok (RResponse response)
   | Raise e => Raise e
   end).
Proof.
  intros Hc Hgp Hsp. cbv zeta.
  destruct (_parse_spatial_only_warns (default default_spatial spatial)
              (default PyNone coordinates) (default default_radius radius)
              (default PyNone width) (default PyNone polygon) w) as [issued Hw].
  rewrite Hsp in Hw. simpl in Hw.
  unfold query_region_async. rewrite Hc, Hgp. unfold bind at 1. rewrite Hsp.
  unfold bind, send_request. subst w1. simpl.
  destruct (http _); reflexivity.
Qed.

Lemma query_sends_one_get_request_witness :
  query_region_async (astropy := Demo.demo) None (Some (PyStr "fp_psc"))
    (Some (PyStr "All-Sky")) None None None None Demo.quiet =
  (World [] []
     [Request (IRSA_URL (Astropy := Demo.demo))
        (dict_update (_args_to_payload (astropy := Demo.demo) (PyStr "fp_psc"))
           (<["spatial" := PyStr "NONE"]> ∅))
        (TIMEOUT (Astropy := Demo.demo)) "GET"] false,
   Ok (RResponse (Response "<VOTABLE></VOTABLE>"))).
Proof.
  exact (query_sends_one_get_request (astropy := Demo.demo) None
           (Some (PyStr "fp_psc")) (Some (PyStr "All-Sky")) None None None None
           Demo.quiet Demo.quiet _ eq_refl eq_refl eq_refl).
Defined.

(** X9. In every payload [query_region_async] assembles, [catalog] is
    the catalog name as given, [outfmt] is 3 and [outrows] is the
    configured row limit: the spatial part never overwrites them; and
    [spatial] is the mode as given, except that ['All-Sky'] is sent as
    ['NONE']. *)
Theorem payload_fixed_entries
    {float table : Type} {astropy : Astropy float table}
    (coordinates catalog spatial radius width polygon : option (pyval float))
    (get_query_payload : option bool) (w w' : world float)
    (r : returned float table) :
  query_region_async coordinates catalog spatial radius width polygon
    get_query_payload w = (w', Ok r) ->
  exists p,
    assembled_payload w w' r p /\
    p !! "catalog" = Some (default PyNone catalog) /\
    p !! "outfmt" = Some (PyNum (NInt 3)) /\
    p !! "outrows" = Some ROW_LIMIT /\
    p !! "spatial" =
      Some (if py_eq_str (default default_spatial spatial) "All-Sky"
            then PyStr "NONE" else default default_spatial spatial).
Proof.
  intros H.
  apply query_region_async_assembled in H as (w1 & sp & Hsp & H).
  eexists. split; [exact H|].
  destruct (_parse_spatial_mode _ _ _ _ _ _ _ _ Hsp) as [m Hm].
  rewrite Hm in Hsp |- *.
  pose proof (_parse_spatial_dom _ _ _ _ _ _ _ _ Hsp) as Hdom.
  assert (Hfree : forall k,
    k ∉ ({["spatial"; "objstr"; "radius"; "radunits"; "size"; "polygon"]} : gset string) ->
    dict_update (_args_to_payload (default PyNone catalog)) sp !! k
    = _args_to_payload (default PyNone catalog) !! k).
  { intros k Hk. unfold dict_update. apply lookup_union_r.
    apply not_elem_of_dom. rewrite Hdom. clear -Hk.
    destruct m, (negb (is_None (default PyNone coordinates))); simpl; set_solver. }
  repeat split.
  - rewrite Hfree by set_solver. unfold _args_to_payload. apply lookup_insert_eq.
  - rewrite Hfree by set_solver. unfold _args_to_payload.
    rewrite lookup_insert_ne by discriminate. apply lookup_insert_eq.
  - rewrite Hfree by set_solver. unfold _args_to_payload.
    rewrite !lookup_insert_ne by discriminate. apply lookup_insert_eq.
  - apply lookup_dict_update. destruct m.
    + apply _parse_spatial_Cone in Hsp as (? & ? & ? & _ & _ & ->); [|reflexivity].
      apply lookup_insert_eq.
    + apply _parse_spatial_Box in Hsp as (? & ? & ? & ? & _ & _ & _ & ->);
        [|reflexivity]. apply lookup_insert_eq.
    + apply _parse_spatial_Polygon in Hsp as (? & ? & ? & ? & _ & _ & ->);
        [|reflexivity]. apply lookup_insert_eq.
    + rewrite _parse_spatial_AllSky in Hsp by reflexivity.
      injection Hsp as _ <-. apply lookup_insert_eq.
Qed.

Lemma payload_fixed_entries_witness :
  exists p,
    assembled_payload Demo.quiet Demo.quiet
      (RPayload (table := Demo.table)
         (dict_update (_args_to_payload (astropy := Demo.demo) (PyStr "fp_psc"))
            (<["spatial" := PyStr "NONE"]> ∅))) p /\
    p !! "catalog" = Some (PyStr "fp_psc") /\
    p !! "outfmt" = Some (PyNum (NInt 3)) /\
    p !! "outrows" = Some (ROW_LIMIT (Astropy := Demo.demo)) /\
    p !! "spatial" = Some (PyStr "NONE").
Proof.
  exact (payload_fixed_entries (astropy := Demo.demo) None (Some (PyStr "fp_psc"))
           (Some (PyStr "All-Sky")) None None None (Some true)
           Demo.quiet Demo.quiet _ eq_refl).
Defined.

Lemma query_region_async_network
    {float table : Type} {astropy : Astropy float table}
    (coordinates catalog spatial radius width polygon : option (pyval float))
    (get_query_payload : option bool) (w : world float) :
  let w' := fst (query_region_async coordinates catalog spatial radius width polygon
                   get_query_payload w) in
  network w' = network w \/
  exists data, network w' = (network w ++ [Request IRSA_URL data TIMEOUT "GET"])%list.
Proof.
  cbv zeta. unfold query_region_async.
  destruct (is_None (default PyNone catalog)); [now left|].
  unfold bind, send_request.
  pose proof (keeps_network__parse_spatial (default default_spatial spatial)
                (default PyNone coordinates) (default default_radius radius)
                (default PyNone width) (default PyNone polygon) w) as Hnet.
  destruct (_parse_spatial _ _ _ _ _ w) as [w1 [parsed|e]]; simpl in Hnet;
    [|now left].
  destruct (default false get_query_payload); [now left|].
  right. eexists.
  match goal with |- context [http ?rq] => destruct (http rq) end;
    simpl; rewrite Hnet; reflexivity.
Qed.

(** X10. No run of [query_region_async] or of [query_region], whatever
    the arguments and whether it returns or raises, sends more than one
    request, and a request that is sent is a [GET] to [IRSA_URL] with
    [TIMEOUT]; reading the response sends nothing more. *)
Theorem at_most_one_request
    {float table : Type} {astropy : Astropy float table}
    (coordinates catalog spatial radius width polygon : option (pyval float))
    (get_query_payload verbose : option bool) (w : world float) :
  let sent (w' : world float) :=
    network w' = network w \/
    exists data,
      network w' = (network w ++ [Request IRSA_URL data TIMEOUT "GET"])%list in
  sent (fst (query_region_async coordinates catalog spatial radius width polygon
               get_query_payload w)) /\
  sent (fst (query_region coordinates catalog spatial radius width polygon
               get_query_payload verbose w)).
Proof.
  cbv zeta. split; [apply query_region_async_network|].
  unfold query_region, bind.
  pose proof (query_region_async_network coordinates catalog
                (Some (default default_spatial spatial))
                (Some (default default_radius radius)) width polygon
                (Some (default false get_query_payload)) w) as Hnet.
  cbv zeta in Hnet.
  destruct (query_region_async _ _ _ _ _ _ _ w) as [w1 [r|e]]; simpl in Hnet;
    [|exact Hnet].
  destruct (default false get_query_payload); [exact Hnet|].
  destruct r as [p|resp|t|body]; try exact Hnet.
  destruct (_parse_result_world resp (default false verbose) w1)
    as (warned & printed & Hw).
  rewrite Hw. simpl. exact Hnet.
Qed.

(** X11. When the payload is not asked for, what [query_region] returns
    is read from the response to the one request it sent: the table the
    VOTable reader made of its body, or the body itself when the reader
    raised. *)
Theorem query_region_returns
    {float table : Type} {astropy : Astropy float table}
    (coordinates catalog spatial radius width polygon : option (pyval float))
    (get_query_payload verbose : option bool) (w w' : world float)
    (r : returned float table) :
  default false get_query_payload = false ->
  query_region coordinates catalog spatial radius width polygon
    get_query_payload verbose w = (w', Ok r) ->
  exists data response,
    network w' = (network w ++ [Request IRSA_URL data TIMEOUT "GET"])%list /\
    http (Request IRSA_URL data TIMEOUT "GET") = Ok response /\
    ((exists first_table,
        votable_first_table (content response) = Ok first_table /\
        r = RTable first_table) \/
     (exists ex,
        votable_first_table (content response) = Raise ex /\
        isinstance ex "Exception" = true /\
        r = RContent (content response))).
Proof.
  intros Hgp H. unfold query_region in H. rewrite Hgp in H.
  unfold bind in H.
  destruct (query_region_async _ _ _ _ _ _ _ w) as [w1 [r1|e]] eqn:Hq;
    [|discriminate H].
  pose proof Hq as Hrun.
  apply query_region_async_returns in Hrun as (Hc & w0 & sp & Hsp & Hrest).
  cbv zeta in Hrest. simpl default in Hrest.
  destruct Hrest as (resp & -> & _).
  pose proof (query_sends_one_get_request coordinates catalog
                (Some (default default_spatial spatial))
                (Some (default default_radius radius)) width polygon (Some false)
                w w0 sp Hc eq_refl Hsp) as Hsend.
  cbv zeta in Hsend. rewrite Hq in Hsend.
  injection Hsend as Hw1 Hresp.
  destruct (http _) as [resp'|e] eqn:Hhttp; [|discriminate Hresp].
  injection Hresp as ->.
  exists (dict_update (_args_to_payload (default PyNone catalog)) sp), resp'.
  pose proof (_parse_result_world resp' (default false verbose) w1)
    as (warned & printed & Hw).
  rewrite H in Hw. simpl in Hw.
  split; [subst w' w1; reflexivity|]. split; [exact Hhttp|].
  apply _parse_result_returns in H as (_ & _ & _ & H). exact H.
Qed.

Lemma query_region_returns_witness :
  exists data response,
    network
      (World ["Coordinate string is being interpreted as an ICRS coordinate.";
              "Query returned no results, so the table will be empty"] []
         [Request (IRSA_URL (Astropy := Demo.demo))
            (dict_update (_args_to_payload (astropy := Demo.demo) (PyStr "fp_psc"))
               (<["spatial" := PyStr "Cone"]>
                  (<["radunits" := PyStr "arcsec"]>
                     (<["radius" := PyNum (NInt 10)]>
                        (<["objstr" := PyStr "10.0 +41.0"]> ∅)))))
            (TIMEOUT (Astropy := Demo.demo)) "GET"] true) =
      (network Demo.quiet ++
       [Request (IRSA_URL (Astropy := Demo.demo)) data
          (TIMEOUT (Astropy := Demo.demo)) "GET"])%list /\
    http (Astropy := Demo.demo)
      (Request (IRSA_URL (Astropy := Demo.demo)) data
         (TIMEOUT (Astropy := Demo.demo)) "GET") = Ok response /\
    ((exists first_table,
        votable_first_table (Astropy := Demo.demo) (content response)
          = Ok first_table /\
        RTable (float := Demo.float) 0%nat = RTable first_table) \/
     (exists ex,
        votable_first_table (Astropy := Demo.demo) (content response) = Raise ex /\
        isinstance ex "Exception" = true /\
        RTable (float := Demo.float) (table := Demo.table) 0%nat
          = RContent (content response))).
Proof.
  exact (query_region_returns (astropy := Demo.demo) (Some (PyStr "10 +41"))
           (Some (PyStr "fp_psc")) None None None None None None Demo.quiet _ _
           eq_refl eq_refl).
Defined.

(** ** The center of the search *)

Section Centers.
Context {float table : Type} {astropy : Astropy float table}.
Local Abbreviation pyval := (pyval float).

Lemma _format_decimal_coords_numbers (ra dec : number float) :
  _format_decimal_coords (PyNum ra) (PyNum dec) = Ok (spec_vertex_token (ra, dec)).
Proof.
  unfold _format_decimal_coords, format_sign, format_plain, spec_vertex_token.
  simpl. destruct (number_minus dec); reflexivity.
Qed.

Lemma objstr_of_name (coordinates : pyval) (e : exn) (w : world float) :
  ICRSCoordinates coordinates = Raise e ->
  isinstance e "ValueError" = true ->
  objstr_of coordinates w = (w, Ok coordinates).
Proof.
  intros Hraise He.
  unfold objstr_of, _is_coordinate, try_except, bind, lift, isinstance_any.
  rewrite Hraise. simpl existsb. rewrite He. reflexivity.
Qed.

Lemma objstr_of_object (c parsed : SphericalCoordinates float) (w : world float) :
  ICRSCoordinates (PyCoord c) = Ok parsed ->
  objstr_of (PyCoord c) w = (w, Ok (PyStr (position_token c))).
Proof.
  intros Hok.
  unfold objstr_of, _is_coordinate, try_except, bind at 1, bind at 1, lift.
  rewrite Hok. unfold ret at 1. cbn [negb].
  unfold _parse_coordinates, bind, ret, lift.
  rewrite _format_decimal_coords_numbers. reflexivity.
Qed.

Lemma objstr_of_string (s : string) (parsed : SphericalCoordinates float)
    (w : world float) :
  ICRSCoordinates (PyStr s) = Ok parsed ->
  objstr_of (PyStr s) w =
  (World (warnings w ++ ["Coordinate string is being interpreted as an ICRS coordinate."])
     (stdout w) (network w) (vo_warnings_suppressed w),
   Ok (PyStr (position_token parsed))).
Proof.
  intros Hok.
  unfold objstr_of, _is_coordinate, try_except, bind at 1, bind at 1, lift.
  rewrite Hok. unfold ret at 1. cbn [negb].
  unfold _parse_coordinates, try_except, bind, ret, lift, warn.
  rewrite Hok, _format_decimal_coords_numbers. reflexivity.
Qed.

(** The run of [objstr_of] inside a returning run of [_parse_spatial] in
    a mode that has a center. *)
Lemma _parse_spatial_center (m : mode) (coordinates radius width polygon : pyval)
    (w w' : world float) (sp : gmap string pyval) :
  m <> AllSky ->
  (m = Polygon -> is_None coordinates = false) ->
  _parse_spatial (PyStr (mode_name m)) coordinates radius width polygon w = (w', Ok sp) ->
  exists w0 objstr issued,
    objstr_of coordinates w = (w0, Ok objstr) /\
    sp !! "objstr" = Some objstr /\
    warnings w' = (warnings w0 ++ issued)%list.
Proof.
  intros Hm Hcenter H. destruct m; [| | |congruence].
  - apply _parse_spatial_Cone in H as (w0 & o & q & Ho & Hq & ->); [|reflexivity].
    exists w0, o, []. split; [exact Ho|]. split.
    + rewrite !lookup_insert_ne by discriminate. apply lookup_insert_eq.
    + rewrite _parse_dimension_pure in Hq. injection Hq as <- _.
      now rewrite app_nil_r.
  - apply _parse_spatial_Box in H as (w0 & o & q & sz & Ho & Hq & _ & ->);
      [|reflexivity].
    exists w0, o, []. split; [exact Ho|]. split.
    + rewrite !lookup_insert_ne by discriminate. apply lookup_insert_eq.
    + rewrite _parse_dimension_pure in Hq. injection Hq as <- _.
      now rewrite app_nil_r.
  - apply _parse_spatial_Polygon in H as (w0 & c & pg & cl & Hc & Hpoly & ->);
      [|reflexivity].
    rewrite (Hcenter eq_refl) in Hc. destruct Hc as (o & Ho & ->).
    destruct (only_warns_polygon_vertices polygon w0) as [issued Hw].
    rewrite Hpoly in Hw. simpl in Hw.
    exists w0, o, issued. split; [exact Ho|]. split.
    + rewrite !lookup_insert_ne by discriminate. apply lookup_insert_eq.
    + now subst w'.
Qed.

(** X12. In a cone, box or polygon search, coordinates that
    [ICRSCoordinates] rejects with a [ValueError], an object name for
    instance, go into the payload as they are, for the server to
    resolve. *)
Theorem names_pass_through (m : mode) (coordinates radius width polygon : pyval)
    (e : exn) (w w' : world float) (sp : gmap string pyval) :
  m <> AllSky ->
  (m = Polygon -> is_None coordinates = false) ->
  ICRSCoordinates coordinates = Raise e ->
  isinstance e "ValueError" = true ->
  _parse_spatial (PyStr (mode_name m)) coordinates radius width polygon w = (w', Ok sp) ->
  sp !! "objstr" = Some coordinates.
Proof.
  intros Hm Hcenter Hraise He H.
  apply _parse_spatial_center in H as (w0 & o & issued & Ho & Hobj & _);
    [|exact Hm|exact Hcenter].
  rewrite (objstr_of_name _ _ _ Hraise He) in Ho. injection Ho as _ <-.
  exact Hobj.
Qed.

(** X13. In a cone, box or polygon search, coordinates that
    [ICRSCoordinates] accepts go into the payload as the decimal
    degrees of a position, right ascension, a blank, and the signed
    declination: the position parsed from a string, with the warning
    that the string was read as ICRS, or the position of the coordinate
    object itself. *)
Theorem positions_go_in_decimal_degrees (m : mode)
    (coordinates radius width polygon : pyval)
    (parsed position : SphericalCoordinates float)
    (w w' : world float) (sp : gmap string pyval) :
  m <> AllSky ->
  ICRSCoordinates coordinates = Ok parsed ->
  (exists s, coordinates = PyStr s /\ position = parsed) \/
    coordinates = PyCoord position ->
  _parse_spatial (PyStr (mode_name m)) coordinates radius width polygon w = (w', Ok sp) ->
  sp !! "objstr" = Some (PyStr (position_token position)) /\
  ((exists s, coordinates = PyStr s) ->
   In "Coordinate string is being interpreted as an ICRS coordinate." (warnings w')).
Proof.
  intros Hm Hok Hkind H.
  apply _parse_spatial_center in H as (w0 & o & issued & Ho & Hobj & Hwarn);
    [|exact Hm|destruct Hkind as [(s & -> & _)| ->]; reflexivity].
  destruct Hkind as [(s & -> & ->)| ->].
  - rewrite (objstr_of_string _ _ _ Hok) in Ho. injection Ho as <- <-.
    split; [exact Hobj|]. intros _. rewrite Hwarn. simpl.
    apply in_or_app. left. apply in_or_app. right. now left.
  - rewrite (objstr_of_object _ _ _ Hok) in Ho. injection Ho as _ <-.
    split; [exact Hobj|]. intros [s Hs]. discriminate Hs.
Qed.

End Centers.

Lemma names_pass_through_witness :
  (<["spatial" := PyStr "Box"]>
     (<["size" := PyNum (NInt 120)]>
        (<["objstr" := PyStr "M31"]> (∅ : gmap string (pyval Demo.float)))))
    !! "objstr" = Some (PyStr "M31").
Proof.
  exact (names_pass_through (astropy := Demo.demo) Box (PyStr "M31") default_radius
           (PyQuantity (Quantity (NInt 2) arcmin)) PyNone
           (ValueError "Could not parse the coordinate string")
           Demo.quiet Demo.quiet _
           ltac:(discriminate) ltac:(discriminate) eq_refl eq_refl eq_refl).
Defined.

Lemma positions_go_in_decimal_degrees_witness :
  (<["spatial" := PyStr "Cone"]>
     (<["radunits" := PyStr "arcsec"]>
        (<["radius" := PyNum (NInt 10)]>
           (<["objstr" := PyStr "10.0 +41.0"]>
              (∅ : gmap string (pyval Demo.float))))))
    !! "objstr"
  = Some (PyStr (position_token (astropy := Demo.demo) (SkyCoord 10%Z 41%Z))) /\
  ((exists s, PyStr (float := Demo.float) "10 +41" = PyStr s) ->
   In "Coordinate string is being interpreted as an ICRS coordinate."
     (warnings
        (World (float := Demo.float)
           ["Coordinate string is being interpreted as an ICRS coordinate."]
           [] [] false))).
Proof.
  exact (positions_go_in_decimal_degrees (astropy := Demo.demo) Cone
           (PyStr "10 +41") default_radius PyNone PyNone
           (SkyCoord 10%Z 41%Z) (SkyCoord 10%Z 41%Z) Demo.quiet _ _
           ltac:(discriminate) eq_refl
           (or_introl (ex_intro _ "10 +41" (conj eq_refl eq_refl))) eq_refl).
Defined.

(** ** More on dimensions *)

Section Dimensions.
Context {float table : Type} {astropy : Astropy float table}.
Local Abbreviation pyval := (pyval float).

(** X14. A dimension that is not a quantity in an angular unit goes to
    [commons.parse_radius]; when that raises a units error or an
    [AttributeError], [_parse_dimension] raises [UnitsException] with the
    message that the dimension is not in proper units, and any other
    error is raised as it is.  The world is left as it was. *)
Theorem unparsable_dimension_raises (dim : pyval) (e : exn) (w : world float) :
  (forall q, dim = PyQuantity q -> is_angle_unit (unit q) = false) ->
  parse_radius_degree dim = Raise e ->
  _parse_dimension dim w =
  (w, Raise (if isinstance_any e
                  ["UnitsException"; "coordinates.errors.UnitsError"; "AttributeError"]
             then UnitsException "Dimension not in proper units"
             else e)).
Proof.
  intros Hdim Hraise.
  assert (Hother :
    try_except
      (new_dim_degree <- lift (parse_radius_degree dim) ;;
       ret (Quantity (NFloat new_dim_degree) deg))
      ["UnitsException"; "coordinates.errors.UnitsError"; "AttributeError"]
      (fun _ => raise (UnitsException "Dimension not in proper units")) w
    = (w, Raise (if isinstance_any e
                      ["UnitsException"; "coordinates.errors.UnitsError";
                       "AttributeError"]
                 then UnitsException "Dimension not in proper units"
                 else e))).
  { unfold try_except, bind, lift, raise. rewrite Hraise.
    destruct (isinstance_any e _); reflexivity. }
  unfold _parse_dimension. destruct dim; try exact Hother.
  rewrite (Hdim q eq_refl). exact Hother.
Qed.

(** X15. Resolving a dimension twice is the same as resolving it once:
    a quantity [_parse_dimension] returned is returned unchanged when it
    is given back to it. *)
Theorem _parse_dimension_idempotent (dim : pyval) (w w' w2 : world float)
    (q : quantity float) :
  _parse_dimension dim w = (w', Ok q) ->
  _parse_dimension (PyQuantity q) w2 = (w2, Ok q).
Proof.
  intros H. apply _parse_dimension_service_unit.
  exact (_parse_dimension_unit _ _ _ _ H).
Qed.

(** X16. A cone radius given as a quantity in arc-seconds, arc-minutes
    or degrees is sent as it is: [radius] is its value, not converted,
    and [radunits] the name of its unit. *)
Theorem cone_radius_sent_unconverted (coordinates polygon width : pyval)
    (radius : quantity float) (w w' : world float) (sp : gmap string pyval) :
  unit radius = arcsec \/ unit radius = arcmin \/ unit radius = deg ->
  _parse_spatial (PyStr "Cone") coordinates (PyQuantity radius) width polygon w
    = (w', Ok sp) ->
  sp !! "radius" = Some (PyNum (value radius)) /\
  sp !! "radunits" = Some (PyStr (to_string (unit radius))) /\
  (to_string (unit radius) = "arcsec" \/ to_string (unit radius) = "arcmin" \/
   to_string (unit radius) = "deg").
Proof.
  intros Hu H.
  apply _parse_spatial_Cone in H as (w0 & o & q & _ & Hq & ->); [|reflexivity].
  rewrite _parse_dimension_service_unit in Hq by exact Hu.
  injection Hq as _ <-. split; [|split].
  - rewrite !lookup_insert_ne by discriminate. apply lookup_insert_eq.
  - rewrite lookup_insert_ne by discriminate. apply lookup_insert_eq.
  - destruct Hu as [->|[->| ->]]; simpl; auto.
Qed.

End Dimensions.

Lemma unparsable_dimension_raises_witness :
  _parse_dimension (astropy := Demo.demo) PyNone Demo.quiet =
  (Demo.quiet,
   Raise (UnitsException (astropy := Demo.demo) "Dimension not in proper units")).
Proof.
  exact (unparsable_dimension_raises (astropy := Demo.demo) PyNone
           (Exn "AttributeError" standard_bases
              "'NoneType' object has no attribute 'to'")
           Demo.quiet ltac:(discriminate) eq_refl).
Defined.

Lemma _parse_dimension_idempotent_witness :
  _parse_dimension (astropy := Demo.demo)
    (PyQuantity (Quantity (NFloat 1%Z) deg)) Demo.quiet =
  (Demo.quiet, Ok (Quantity (NFloat 1%Z) deg)).
Proof.
  exact (_parse_dimension_idempotent (astropy := Demo.demo) (PyStr "1d")
           Demo.quiet Demo.quiet Demo.quiet _ eq_refl).
Defined.

Lemma cone_radius_sent_unconverted_witness :
  (<["spatial" := PyStr "Cone"]>
     (<["radunits" := PyStr "arcmin"]>
        (<["radius" := PyNum (NInt 5)]>
           (<["objstr" := PyStr "M31"]>
              (∅ : gmap string (pyval Demo.float))))))
    !! "radius" = Some (PyNum (NInt 5)) /\
  (<["spatial" := PyStr "Cone"]>
     (<["radunits" := PyStr "arcmin"]>
        (<["radius" := PyNum (NInt 5)]>
           (<["objstr" := PyStr "M31"]>
              (∅ : gmap string (pyval Demo.float))))))
    !! "radunits" = Some (PyStr "arcmin") /\
  ("arcmin" = "arcsec" \/ "arcmin" = "arcmin" \/ "arcmin" = "deg").
Proof.
  exact (cone_radius_sent_unconverted (astropy := Demo.demo) (PyStr "M31") PyNone
           PyNone (Quantity (NInt 5) arcmin) Demo.quiet Demo.quiet _
           (or_intror (or_introl eq_refl)) eq_refl).
Defined.

(** ** More on polygons *)

Section MorePolygons.
Context {float table : Type} {astropy : Astropy float table}.
Local Abbreviation pyval := (pyval float).

Lemma _parse_coordinates_object (c : SphericalCoordinates float) (w : world float) :
  _parse_coordinates (PyCoord c) w = (w, Ok (position_token c)).
Proof.
  unfold _parse_coordinates, bind, ret, lift.
  rewrite _format_decimal_coords_numbers. reflexivity.
Qed.

Lemma list_comprehension_objects (cs : list (SphericalCoordinates float))
    (w : world float) :
  list_comprehension _parse_coordinates (map PyCoord cs) w =
  (w, Ok (map position_token cs)).
Proof.
  induction cs as [|c cs IH]; [reflexivity|].
  simpl. unfold bind at 1. rewrite _parse_coordinates_object.
  unfold bind at 1. rewrite IH. reflexivity.
Qed.

(** X17. A polygon given as a list of coordinate objects, without a
    center, always yields a payload, and silently: [polygon] is the join
    with commas of the positions of the objects in decimal degrees, one
    token for each object and in their order, and [spatial] is
    ['Polygon']; no parser is consulted and no warning issued. *)
Theorem polygon_of_coordinate_objects (cs : list (SphericalCoordinates float))
    (radius width : pyval) (w : world float) :
  _parse_spatial (PyStr "Polygon") PyNone radius width (PyList (map PyCoord cs)) w =
  (w, Ok (<["spatial" := PyStr "Polygon"]>
            (<["polygon" := PyStr (String.concat "," (map position_token cs))]> ∅))) /\
  length (map position_token cs) = length cs.
Proof.
  split; [|apply length_map].
  unfold _parse_spatial. cbn [py_eq_str String.eqb Ascii.eqb Bool.eqb existsb orb].
  cbn [is_None negb]. unfold bind at 1. unfold ret at 1.
  unfold bind at 1, polygon_vertices, try_except, bind at 1, lift. cbn [py_iter].
  unfold bind at 1. rewrite list_comprehension_objects. reflexivity.
Qed.

(** X18. A polygon given as pairs of bare numbers, without a center:
    when [coord.Angle] refuses the first number for want of a unit, with
    a [UnitsException], [_parse_spatial] always returns; the numbers are
    taken as decimal degrees as they are, and the one warning issued says
    so. *)
Theorem polygon_of_bare_numbers
    (v : number float * number float) (rest : list (number float * number float))
    (e : exn) (radius width : pyval) (w : world float) :
  Angle_degree (PyNum (fst v)) = Raise e ->
  isinstance e "UnitsException" = true ->
  _parse_spatial (PyStr "Polygon") PyNone radius width
    (PyList (map vertex (v :: rest))) w =
  (World
     (warnings w ++
      ["Polygon endpoints are being interpreted as RA/Dec pairs specified in decimal degree units."])
     (stdout w) (network w) (vo_warnings_suppressed w),
   Ok (<["spatial" := PyStr "Polygon"]>
         (<["polygon" :=
              PyStr (String.concat "," (map spec_vertex_token (v :: rest)))]> ∅))).
Proof.
  intros Hraise He.
  assert (Hconv : forall w1,
    list_comprehension pair_to_degrees (map vertex (v :: rest)) w1 = (w1, Raise e)).
  { intros w1. cbn [map list_comprehension]. unfold bind at 1.
    rewrite pair_to_degrees_vertex, Hraise. reflexivity. }
  unfold _parse_spatial. cbn [py_eq_str String.eqb Ascii.eqb Bool.eqb existsb orb].
  cbn [is_None negb]. unfold bind at 1. unfold ret at 1.
  unfold bind at 1, polygon_vertices, try_except at 1, bind at 1, lift at 1.
  cbn [py_iter]. change (map vertex (v :: rest)) with (vertex v :: map vertex rest).
  unfold bind at 1. unfold vertex at 1. rewrite list_comprehension_tuple.
  cbn [isinstance_any existsb isinstance TypeError exn_class exn_bases
       standard_bases String.eqb Ascii.eqb Bool.eqb orb].
  unfold bind at 1. unfold lift at 1. cbn [py_getitem nth_error is_tuple vertex].
  unfold bind at 1, try_except at 1, bind at 1, lift at 1. cbn [py_iter].
  unfold bind at 1.
  change (PyTuple [PyNum (fst v); PyNum (snd v)] :: map vertex rest)
    with (map vertex (v :: rest)).
  rewrite Hconv. unfold isinstance_any. cbn [existsb]. rewrite He. cbn [orb].
  unfold bind at 1, warn at 1. unfold ret at 1.
  unfold bind at 1, lift at 1. cbn [py_iter].
  change (vertex v :: map vertex rest) with (map vertex (v :: rest)).
  unfold bind at 1. rewrite list_comprehension_pair_to_string.
  reflexivity.
Qed.

(** X19. A polygon without vertices, an empty list or tuple and no
    center, is not refused: the payload has [polygon] as the empty
    string. *)
Theorem polygon_without_vertices (polygon radius width : pyval) (w : world float) :
  py_iter polygon = Ok [] ->
  _parse_spatial (PyStr "Polygon") PyNone radius width polygon w =
  (w, Ok (<["spatial" := PyStr "Polygon"]> (<["polygon" := PyStr ""]> ∅))).
Proof.
  intros Hiter.
  unfold _parse_spatial. cbn [py_eq_str String.eqb Ascii.eqb Bool.eqb existsb orb].
  cbn [is_None negb]. unfold bind at 1. unfold ret at 1.
  unfold bind at 1, polygon_vertices, try_except, bind at 1, lift.
  rewrite Hiter. reflexivity.
Qed.

(** X20. A polygon search whose polygon cannot be iterated over, left
    out for instance, raises the [TypeError] of indexing it: the handler
    of the failed iteration looks at [polygon[0]] first.  No payload is
    returned and no unit or parse error stands in for it. *)
Theorem polygon_not_iterable_raises (polygon radius width : pyval) (e : exn)
    (w : world float) :
  py_iter polygon = Raise e ->
  exists e',
    py_getitem polygon 0 = Raise e' /\
    isinstance e' "TypeError" = true /\
    _parse_spatial (PyStr "Polygon") PyNone radius width polygon w = (w, Raise e').
Proof.
  intros Hiter.
  assert (Hcatch : isinstance_any e ["ValueError"; "TypeError"] = true)
    by (destruct polygon; try discriminate Hiter; injection Hiter as <-; reflexivity).
  assert (Hget : exists e', py_getitem polygon 0 = Raise e' /\
                            isinstance e' "TypeError" = true)
    by (destruct polygon; try discriminate Hiter; eexists; split; reflexivity).
  destruct Hget as (e' & Hget & He'). exists e'. split; [exact Hget|].
  split; [exact He'|].
  unfold _parse_spatial. cbn [py_eq_str String.eqb Ascii.eqb Bool.eqb existsb orb].
  cbn [is_None negb]. unfold bind at 1. unfold ret at 1.
  unfold bind at 1, polygon_vertices, try_except, bind at 1, lift.
  rewrite Hiter, Hcatch. unfold bind. rewrite Hget. reflexivity.
Qed.

End MorePolygons.

Lemma polygon_of_bare_numbers_witness :
  _parse_spatial (astropy := Demo.demo) (PyStr "Polygon") PyNone default_radius PyNone
    (PyList (map vertex [(NInt 10, NInt (-20)); (NFloat 30%Z, NInt 40)])) Demo.quiet =
  (World
     ["Polygon endpoints are being interpreted as RA/Dec pairs specified in decimal degree units."]
     [] [] false,
   Ok (<["spatial" := PyStr "Polygon"]>
         (<["polygon" :=
              PyStr (String.concat ","
                       (map (spec_vertex_token (astropy := Demo.demo))
                          [(NInt 10, NInt (-20)); (NFloat 30%Z, NInt 40)]))]> ∅))).
Proof.
  exact (polygon_of_bare_numbers (astropy := Demo.demo) (NInt 10, NInt (-20))
           [(NFloat 30%Z, NInt 40)]
           (Demo.demo_UnitsException "No unit was specified in Angle initializer")
           default_radius PyNone Demo.quiet eq_refl eq_refl).
Defined.

Lemma polygon_without_vertices_witness :
  _parse_spatial (astropy := Demo.demo) (PyStr "Polygon") PyNone default_radius PyNone
    (PyTuple []) Demo.quiet =
  (Demo.quiet, Ok (<["spatial" := PyStr "Polygon"]> (<["polygon" := PyStr ""]> ∅))).
Proof.
  exact (polygon_without_vertices (astropy := Demo.demo) (PyTuple []) default_radius
           PyNone Demo.quiet eq_refl).
Defined.

Lemma polygon_not_iterable_raises_witness :
  exists e',
    py_getitem (float := Demo.float) PyNone 0 = Raise e' /\
    isinstance e' "TypeError" = true /\
    _parse_spatial (astropy := Demo.demo) (PyStr "Polygon") PyNone default_radius
      PyNone PyNone Demo.quiet = (Demo.quiet, Raise e').
Proof.
  exact (polygon_not_iterable_raises (astropy := Demo.demo) PyNone default_radius
           PyNone (TypeError "'NoneType' object is not iterable") Demo.quiet eq_refl).
Defined.

(** ** The catalog directory *)

Lemma collect_catalogs_entries (found : list Element)
    (entries : list (option string * option string))
    (catalogs : gmap (option string) (option string)) :
  catalog_entries found = Some entries ->
  collect_catalogs found catalogs = Ok (list_to_map (reverse entries) ∪ catalogs).
Proof.
  revert entries catalogs. induction found as [|catalog rest IH];
    intros entries catalogs H; simpl in H.
  - injection H as <-. simpl. now rewrite (left_id_L ∅ (∪)).
  - simpl.
    destruct (Element_find "catname" catalog) as [name|]; [|discriminate H].
    destruct (Element_find "desc" catalog) as [desc|]; [|discriminate H].
    destruct (catalog_entries rest) as [entries'|]; [|discriminate H].
    injection H as <-. simpl.
    rewrite (IH entries' _ eq_refl), reverse_cons, list_to_map_app.
    simpl. rewrite insert_union_singleton_l, insert_empty.
    now rewrite (assoc_L (∪)).
Qed.

Lemma collect_catalogs_incomplete (found : list Element)
    (catalogs : gmap (option string) (option string)) :
  catalog_entries found = None ->
  collect_catalogs found catalogs =
  Raise (AttributeError "'NoneType' object has no attribute 'text'").
Proof.
  revert catalogs. induction found as [|catalog rest IH]; intros catalogs H;
    simpl in H; [discriminate H|].
  simpl.
  destruct (Element_find "catname" catalog) as [name|]; [|reflexivity].
  destruct (Element_find "desc" catalog) as [desc|]; [|reflexivity].
  simpl. apply IH.
  destruct (catalog_entries rest); [discriminate H|reflexivity].
Qed.

Section DirectoryProperties.
Context {float table : Type} {astropy : Astropy float table} {gator : Gator}.

(** X21. Every run of [list_catalogs], returning or raising, sends
    exactly one request, a [GET] to [GATOR_LIST_URL] with the payload
    [mode=xml] and [TIMEOUT], and does nothing else to the world; an
    error of the transport or of the XML parser is raised as it is, after
    the request. *)
Theorem list_catalogs_request (w : world float) :
  let rq := Request GATOR_LIST_URL {["mode" := PyStr "xml"]} TIMEOUT "GET" in
  fst (list_catalogs w) =
    World (warnings w) (stdout w) (network w ++ [rq]) (vo_warnings_suppressed w) /\
  match http rq with
  | Raise e => snd (list_catalogs w) = Raise e
  | Ok response =>
      match fromstring (content response) with
      | Raise e => snd (list_catalogs w) = Raise e
      | Ok root =>
          snd (list_catalogs w) = collect_catalogs (Element_findall "catalog" root) ∅
      end
  end.
Proof.
  cbv zeta. unfold list_catalogs, bind, send_request, lift.
  destruct (http _) as [response|e]; [|split; reflexivity].
  destruct (fromstring (content response)); split; reflexivity.
Qed.

(** X22. When every [<catalog>] child of the root has a [<catname>] and
    a [<desc>], [list_catalogs] returns a dictionary in which a name that
    no entry has is absent and a name that entries have is bound to the
    description of the last of them: later entries overwrite earlier
    ones.  Children of the root with another tag are not looked at. *)
Theorem list_catalogs_directory (w : world float) (response : response)
    (root : Element) (entries : list (option string * option string)) :
  http (Request GATOR_LIST_URL {["mode" := PyStr "xml"]} TIMEOUT "GET") = Ok response ->
  fromstring (content response) = Ok root ->
  catalog_entries (Element_findall "catalog" root) = Some entries ->
  exists catalogs,
    snd (list_catalogs w) = Ok catalogs /\
    (forall name, name ∉ entries.*1 -> catalogs !! name = None) /\
    (forall before name desc after,
       entries = (before ++ (name, desc) :: after)%list ->
       name ∉ after.*1 -> catalogs !! name = Some desc).
Proof.
  intros Hhttp Hparse Hentries.
  exists (list_to_map (reverse entries)). split; [|split].
  - unfold list_catalogs, bind, send_request, lift. rewrite Hhttp, Hparse.
    simpl. rewrite (collect_catalogs_entries _ _ _ Hentries).
    now rewrite (right_id_L ∅ (∪)).
  - intros name Hname. apply not_elem_of_list_to_map_1.
    rewrite fmap_reverse. now rewrite elem_of_reverse.
  - intros before name desc after -> Hname.
    rewrite reverse_app, reverse_cons, <- (assoc_L (++)), list_to_map_app.
    rewrite lookup_union_r.
    + simpl. apply lookup_insert_eq.
    + apply not_elem_of_list_to_map_1.
      rewrite fmap_reverse. now rewrite elem_of_reverse.
Qed.

(** X23. When a [<catalog>] child of the root lacks its [<catname>] or
    its [<desc>], [list_catalogs] returns no directory, not even of the
    entries before it: it raises the [AttributeError] of reading the text
    of [None]. *)
Theorem list_catalogs_incomplete_entry (w : world float) (response : response)
    (root : Element) :
  http (Request GATOR_LIST_URL {["mode" := PyStr "xml"]} TIMEOUT "GET") = Ok response ->
  fromstring (content response) = Ok root ->
  catalog_entries (Element_findall "catalog" root) = None ->
  snd (list_catalogs w) =
  Raise (AttributeError "'NoneType' object has no attribute 'text'").
Proof.
  intros Hhttp Hparse Hentries.
  unfold list_catalogs, bind, send_request, lift. rewrite Hhttp, Hparse. simpl.
  apply (collect_catalogs_incomplete _ _ Hentries).
Qed.

End DirectoryProperties.

Lemma list_catalogs_directory_witness :
  exists catalogs,
    snd (list_catalogs (astropy := Demo.demo) (gator := DemoGator.demo_gator)
           Demo.quiet) = Ok catalogs /\
    (forall name,
       name ∉ [(Some "fp_psc", Some "2MASS Point Sources");
               (Some "wise_allsky", Some "WISE All-Sky")].*1 ->
       catalogs !! name = None) /\
    (forall before name desc after,
       [(Some "fp_psc", Some "2MASS Point Sources");
        (Some "wise_allsky", Some "WISE All-Sky")]
         = (before ++ (name, desc) :: after)%list ->
       name ∉ after.*1 -> catalogs !! name = Some desc).
Proof.
  exact (list_catalogs_directory (astropy := Demo.demo)
           (gator := DemoGator.demo_gator) Demo.quiet
           (Response "<VOTABLE></VOTABLE>") DemoGator.directory
           [(Some "fp_psc", Some "2MASS Point Sources");
            (Some "wise_allsky", Some "WISE All-Sky")]
           eq_refl eq_refl eq_refl).
Defined.

Lemma list_catalogs_incomplete_entry_witness :
  snd (list_catalogs (astropy := Demo.demo)
         (gator := DemoGator.demo_gator_incomplete) Demo.quiet) =
  Raise (AttributeError "'NoneType' object has no attribute 'text'").
Proof.
  exact (list_catalogs_incomplete_entry (astropy := Demo.demo)
           (gator := DemoGator.demo_gator_incomplete) Demo.quiet
           (Response "<VOTABLE></VOTABLE>") DemoGator.incomplete_directory
           eq_refl eq_refl eq_refl).
Defined.

(** * The sign in front of a declination *)

(** A token set out: the right ascension, a blank, the sign, the digits
    of the declination. *)
Lemma spec_vertex_token_sign {float table : Type} {astropy : Astropy float table}
    (v : number float * number float) :
  spec_vertex_token v =
  format_plain (PyNum (fst v)) ++ " " ++
  String (declination_sign (snd v)) (number_digits (snd v)).
Proof. reflexivity. Qed.

(** When a float that is less than zero prints with a minus and one that
    is greater than zero without, the sign of a declination follows its
    value wherever the value decides it; a zero has the sign of its sign
    bit, and the integer zero has a plus. *)
Lemma declination_sign_by_value
    {float table : Type} {astropy : Astropy float table} {order : FloatOrder float}
    (dec : number float) :
  (forall f, float_compare_zero f = Some Lt -> float_minus f = true) ->
  (forall f, float_compare_zero f = Some Gt -> float_minus f = false) ->
  (number_compare_zero dec = Some Gt -> declination_sign dec = "+"%char) /\
  (number_compare_zero dec = Some Lt -> declination_sign dec = "-"%char) /\
  (forall z, dec = NInt z -> (0 <= z)%Z -> declination_sign dec = "+"%char) /\
  (forall f, dec = NFloat f ->
     (declination_sign dec = "-"%char <-> float_minus f = true)) /\
  (declination_sign dec = "+"%char \/ declination_sign dec = "-"%char).
Proof.
  intros Hneg Hpos. unfold declination_sign. repeat split.
  - destruct dec as [z|f]; simpl.
    + destruct z; intros H; try discriminate H; reflexivity.
    + intros Hf. now rewrite (Hpos f Hf).
  - destruct dec as [z|f]; simpl.
    + destruct z; intros H; try discriminate H; reflexivity.
    + intros Hf. now rewrite (Hneg f Hf).
  - intros z -> Hz. simpl. destruct z; [reflexivity|reflexivity|lia].
  - subst dec. simpl. destruct (float_minus f); [reflexivity|discriminate].
  - subst dec. simpl. intros ->. reflexivity.
  - destruct (number_minus dec); auto.
Qed.

(** C2 fails as stated for a float: the declination [-0.0] is not less
    than zero, it is non-negative, and yet Python prints its sign bit, so
    that the polygon of the one vertex [(10.0, -0.0)] is sent as
    [10.0 -0.0], with a minus and no plus. *)
Lemma negative_zero_declination :
  spec_nonnegative (order := SignedFloats.signed_order)
    (NFloat SignedFloats.negative_zero) = true /\
  (exists p,
     query_region_async (astropy := SignedFloats.signed)
       None (Some (PyStr "fp_psc")) (Some (PyStr "Polygon")) None None
       (Some (PyList [vertex (NFloat SignedFloats.ten,
                              NFloat SignedFloats.negative_zero)]))
       (Some true) SignedFloats.quiet
     = (World
          ["Polygon endpoints are being interpreted as RA/Dec pairs specified in decimal degree units."]
          [] [] false,
        Ok (RPayload p)) /\
     p !! "polygon" = Some (PyStr "10.0 -0.0")) /\
  str_has "+"%char "10.0 -0.0" = false.
Proof.
  split; [reflexivity|]. split; [|reflexivity].
  eexists. split; vm_compute; reflexivity.
Qed.

(** C2, amended.  For a polygon given as a list of N pairs of numbers,
    the value at [polygon] in the payload is the join, with commas, of
    exactly N tokens, one for each pair and in their order; a token is the
    right ascension, a blank, and the declination behind its sign, both
    numbers in decimal degrees as given or as [coord.Angle] reads them; no
    token has a comma in it, so that splitting the value at the commas
    gives the N tokens back.  The sign is always there: [+] for a
    declination greater than zero and for the integer zero, [-] for one
    less than zero, and for a float zero the sign of the zero, [-0.0]
    being sent with its minus. *)
Theorem polygon_tokens_signed
    {float table : Type} {astropy : Astropy float table} {order : FloatOrder float}
    (pairs : list (number float * number float))
    (coordinates catalog spatial radius width : option (pyval float))
    (get_query_payload : option bool) (w w' : world float)
    (r : returned float table) :
  (forall f, str_has comma (float_digits f) = false) ->
  (forall f, float_compare_zero f = Some Lt -> float_minus f = true) ->
  (forall f, float_compare_zero f = Some Gt -> float_minus f = false) ->
  py_eq_str (default default_spatial spatial) "Polygon" = true ->
  query_region_async coordinates catalog spatial radius width
    (Some (PyList (map vertex pairs))) get_query_payload w = (w', Ok r) ->
  exists p vertices,
    assembled_payload w w' r p /\
    (vertices = pairs \/ Forall2 in_degrees pairs vertices) /\
    length vertices = length pairs /\
    p !! "polygon" =
      Some (PyStr (String.concat "," (map spec_vertex_token vertices))) /\
    Forall (fun token => str_has comma token = false)
      (map spec_vertex_token vertices) /\
    (pairs <> [] ->
     str_split comma (String.concat "," (map spec_vertex_token vertices)) =
     map spec_vertex_token vertices) /\
    Forall
      (fun v =>
         spec_vertex_token v =
           format_plain (PyNum (fst v)) ++ " " ++
           String (declination_sign (snd v)) (number_digits (snd v)) /\
         (number_compare_zero (snd v) = Some Gt ->
          declination_sign (snd v) = "+"%char) /\
         (number_compare_zero (snd v) = Some Lt ->
          declination_sign (snd v) = "-"%char) /\
         (forall z, snd v = NInt z -> (0 <= z)%Z ->
            declination_sign (snd v) = "+"%char) /\
         (forall f, snd v = NFloat f ->
            (declination_sign (snd v) = "-"%char <-> float_minus f = true)) /\
         (declination_sign (snd v) = "+"%char \/
          declination_sign (snd v) = "-"%char))
      vertices.
Proof.
  intros Hcomma Hneg Hpos Hs H.
  destruct (polygon_tokens pairs coordinates catalog spatial radius width
              get_query_payload w w' r Hcomma Hs H)
    as (p & vertices & Hp & Hvs & Hlen & Hlookup & Hfree & Hsplit).
  exists p, vertices. repeat (split; [assumption|]).
  clear -Hneg Hpos. induction vertices as [|v vertices IH]; constructor;
    [|exact IH].
  split; [apply spec_vertex_token_sign|].
  apply declination_sign_by_value; assumption.
Qed.

Lemma signed_float_no_comma (f : SignedFloats.float) :
  str_has comma (float_digits (Astropy := SignedFloats.signed) f) = false.
Proof.
  unfold float_digits, SignedFloats.signed.
  now rewrite str_has_app, int_digits_no_comma.
Qed.

Lemma signed_negative_prints_minus (f : SignedFloats.float) :
  float_compare_zero (FloatOrder := SignedFloats.signed_order) f = Some Lt ->
  float_minus (Astropy := SignedFloats.signed) f = true.
Proof.
  destruct f as [s m]. unfold float_compare_zero, float_minus; simpl.
  unfold SignedFloats.compare_zero; simpl.
  destruct (m =? 0)%N; [discriminate|]. now destruct s.
Qed.

Lemma signed_positive_prints_plain (f : SignedFloats.float) :
  float_compare_zero (FloatOrder := SignedFloats.signed_order) f = Some Gt ->
  float_minus (Astropy := SignedFloats.signed) f = false.
Proof.
  destruct f as [s m]. unfold float_compare_zero, float_minus; simpl.
  unfold SignedFloats.compare_zero; simpl.
  destruct (m =? 0)%N; [discriminate|]. now destruct s.
Qed.

Lemma polygon_tokens_signed_witness :
  exists p vertices,
    assembled_payload SignedFloats.quiet
      (World
         ["Polygon endpoints are being interpreted as RA/Dec pairs specified in decimal degree units."]
         [] [] false)
      (RPayload (table := SignedFloats.table)
         (dict_update (_args_to_payload (astropy := SignedFloats.signed) (PyStr "fp_psc"))
            (<["spatial" := PyStr "Polygon"]>
               (<["polygon" := PyStr "10.0 -0.0,30 -40"]> ∅)))) p /\
    (vertices = SignedFloats.sample \/
     Forall2 (in_degrees (astropy := SignedFloats.signed)) SignedFloats.sample vertices) /\
    length vertices = length SignedFloats.sample /\
    p !! "polygon" =
      Some (PyStr (String.concat ","
                     (map (spec_vertex_token (astropy := SignedFloats.signed))
                        vertices))) /\
    Forall (fun token => str_has comma token = false)
      (map (spec_vertex_token (astropy := SignedFloats.signed)) vertices) /\
    (SignedFloats.sample <> [] ->
     str_split comma
       (String.concat ","
          (map (spec_vertex_token (astropy := SignedFloats.signed)) vertices)) =
     map (spec_vertex_token (astropy := SignedFloats.signed)) vertices) /\
    Forall
      (fun v =>
         spec_vertex_token (astropy := SignedFloats.signed) v =
           format_plain (astropy := SignedFloats.signed) (PyNum (fst v)) ++ " " ++
           String (declination_sign (astropy := SignedFloats.signed) (snd v))
             (number_digits (astropy := SignedFloats.signed) (snd v)) /\
         (number_compare_zero (order := SignedFloats.signed_order) (snd v) = Some Gt ->
          declination_sign (astropy := SignedFloats.signed) (snd v) = "+"%char) /\
         (number_compare_zero (order := SignedFloats.signed_order) (snd v) = Some Lt ->
          declination_sign (astropy := SignedFloats.signed) (snd v) = "-"%char) /\
         (forall z, snd v = NInt z -> (0 <= z)%Z ->
            declination_sign (astropy := SignedFloats.signed) (snd v) = "+"%char) /\
         (forall f, snd v = NFloat f ->
            (declination_sign (astropy := SignedFloats.signed) (snd v) = "-"%char <->
             float_minus (Astropy := SignedFloats.signed) f = true)) /\
         (declination_sign (astropy := SignedFloats.signed) (snd v) = "+"%char \/
          declination_sign (astropy := SignedFloats.signed) (snd v) = "-"%char))
      vertices.
Proof.
  exact (polygon_tokens_signed (astropy := SignedFloats.signed)
           (order := SignedFloats.signed_order) SignedFloats.sample
           None (Some (PyStr "fp_psc")) (Some (PyStr "Polygon")) None None
           (Some true) SignedFloats.quiet _ _
           signed_float_no_comma signed_negative_prints_minus
           signed_positive_prints_plain eq_refl eq_refl).
Defined.
